(** * Candidate evaluation rule engine

    A shallow embedding of the scoring and recommendation rules of the
    candidate evaluation system:

    - [src/utils/file_utils.py]            ([FileUtils.read_file]),
    - [src/evaluation/cv_analyzer.py]      (extraction, gap calculation,
      overall assessment, the analysis entry point),
    - [src/evaluation/interview_scorer.py] (per-response scoring and the
      aggregation over several responses),
    - [src/evaluation/report_generator.py] (the final recommendation).

    Python numbers are kept as they are at run time: an [int] is a [Z], a
    [float] is a binary64 value of the kernel ([PrimFloat]), and the arithmetic
    follows Python's coercions.  A text is kept character by character in a
    [string]; this is a faithful image of a Python [str] whose characters are
    all ASCII ([Str.is_ascii]), and the statements that read the length of a
    text say so.  A call that can raise gives an [outcome]. *)

From Stdlib Require Import ZArith QArith Floats Uint63 String Ascii List Bool Lia.
From stdpp Require Import base gmap strings.

Set Warnings "-inexact-float".
Open Scope string_scope.
Open Scope Z_scope.

(** ** Calls that may raise *)

(** What a call gives: the value it returns, or the message [str(e)] of the
    exception it raises. *)
Inductive outcome (A : Type) : Type :=
| Returns (value : A)
| Raises (message : string).

Arguments Returns {A} value.
Arguments Raises {A} message.

(** ** Python numbers *)

Module Py.

Inductive num : Type :=
| Int (z : Z)
| Float (f : float).

(** [float(z)] for an [int]; exact for [|z| < 2^53], which covers every
    integer this program converts (literals, scores and list lengths). *)
Definition Z2F (z : Z) : float :=
  if z <? 0 then (- of_uint63 (of_Z (- z)))%float else of_uint63 (of_Z z).

Definition to_float (a : num) : float :=
  match a with
  | Int z => Z2F z
  | Float f => f
  end.

Definition add (a b : num) : num :=
  match a, b with
  | Int x, Int y => Int (x + y)
  | _, _ => Float (to_float a + to_float b)
  end.

Definition sub (a b : num) : num :=
  match a, b with
  | Int x, Int y => Int (x - y)
  | _, _ => Float (to_float a - to_float b)
  end.

Definition mul (a b : num) : num :=
  match a, b with
  | Int x, Int y => Int (x * y)
  | _, _ => Float (to_float a * to_float b)
  end.

Definition is_zero (a : num) : bool :=
  match a with
  | Int z => z =? 0
  | Float f => PrimFloat.eqb f 0
  end.

(** [a / b]: always a [float]; [None] stands for [ZeroDivisionError].  For
    two [int]s Python rounds the exact quotient, which is the binary64
    division of the two conversions when both are below [2^53]. *)
Definition truediv (a b : num) : option num :=
  if is_zero b then None else Some (Float (to_float a / to_float b)).

Definition ltb (a b : num) : bool :=
  match a, b with
  | Int x, Int y => x <? y
  | _, _ => PrimFloat.ltb (to_float a) (to_float b)
  end.

Definition leb (a b : num) : bool :=
  match a, b with
  | Int x, Int y => x <=? y
  | _, _ => PrimFloat.leb (to_float a) (to_float b)
  end.

Definition eqb (a b : num) : bool :=
  match a, b with
  | Int x, Int y => x =? y
  | _, _ => PrimFloat.eqb (to_float a) (to_float b)
  end.

Definition gtb (a b : num) : bool := ltb b a.
Definition geb (a b : num) : bool := leb b a.

(** [max(a, b)] keeps [a] unless [b > a]; [min(a, b)] keeps [a] unless
    [b < a]. *)
Definition max (a b : num) : num := if gtb b a then b else a.
Definition min (a b : num) : num := if ltb b a then b else a.

(** [sum(l)]: starts from the [int] 0 and adds from left to right (CPython
    before 3.12; later versions add floats with compensation, which may
    change the last bit of a sum of floats). *)
Definition sum (l : list num) : num := fold_left add l (Int 0).

(** The integer nearest to [m * 2^e], ties to the even one. *)
Definition round_half_even (m e : Z) : Z :=
  if 0 <=? e then m * 2 ^ e
  else
    let d := 2 ^ (- e) in
    let q := m / d in
    let r := m mod d in
    match 2 * r ?= d with
    | Lt => q
    | Gt => q + 1
    | Eq => if Z.even q then q else q + 1
    end.

(** [round(x, 2)] on a [float]: the exact binary value of [x] is rounded
    to two decimals, ties to even, and the decimal is read back as the
    nearest [float] (exact for [|x| < 2^53 / 100]).  NaN, the infinities
    and the zeros are returned as they are. *)
Definition round2_float (x : float) : float :=
  match Prim2SF x with
  | S754_finite s m e =>
      if 0 <=? e then x
      else
        let r := (Z2F (round_half_even (Z.pos m * 100) e) / 100)%float in
        if s then (- r)%float else r
  | _ => x
  end.

(** [round(a, 2)]: an [int] is returned unchanged. *)
Definition round2 (a : num) : num :=
  match a with
  | Int z => Int z
  | Float f => Float (round2_float f)
  end.

End Py.

(** ** Python strings *)

Module Str.

(** [s.isascii()] *)
Fixpoint is_ascii (s : string) : bool :=
  match s with
  | EmptyString => true
  | String c s' => (nat_of_ascii c <? 128)%nat && is_ascii s'
  end.

(** [len(s)]: the number of characters, for a text held character by
    character (as every text with [is_ascii] is). *)
Definition len (s : string) : Z := Z.of_nat (String.length s).

Definition is_upper (c : ascii) : bool :=
  let n := nat_of_ascii c in ((65 <=? n) && (n <=? 90))%nat.

Definition is_lower (c : ascii) : bool :=
  let n := nat_of_ascii c in ((97 <=? n) && (n <=? 122))%nat.

Definition lower_char (c : ascii) : ascii :=
  if is_upper c then ascii_of_nat (nat_of_ascii c + 32) else c.

Definition upper_char (c : ascii) : ascii :=
  if is_lower c then ascii_of_nat (nat_of_ascii c - 32) else c.

(** [s.lower()] *)
Fixpoint lower (s : string) : string :=
  match s with
  | EmptyString => EmptyString
  | String c s' => String (lower_char c) (lower s')
  end.

(** [needle in hay] *)
Fixpoint contains (needle hay : string) {struct hay} : bool :=
  match hay with
  | EmptyString => String.prefix needle hay
  | String _ hay' => String.prefix needle hay || contains needle hay'
  end.

(** [any(word in text for word in words)] *)
Definition any_in (words : list string) (text : string) : bool :=
  existsb (fun word => contains word text) words.

(** [s.title()]: a letter that follows a letter is lowered, any other
    letter is raised. *)
Fixpoint title_from (previous_is_cased : bool) (s : string) : string :=
  match s with
  | EmptyString => EmptyString
  | String c s' =>
      let cased := is_upper c || is_lower c in
      String (if cased then (if previous_is_cased then lower_char c else upper_char c) else c)
             (title_from cased s')
  end.

Definition title (s : string) : string := title_from false s.

Definition is_space (c : ascii) : bool :=
  let n := nat_of_ascii c in (((9 <=? n) && (n <=? 13)) || ((28 <=? n) && (n <=? 32)))%nat.

Fixpoint lstrip (s : string) : string :=
  match s with
  | EmptyString => EmptyString
  | String c s' => if is_space c then lstrip s' else s
  end.

Fixpoint rstrip (s : string) : string :=
  match s with
  | EmptyString => EmptyString
  | String c s' =>
      match rstrip s' with
      | EmptyString => if is_space c then EmptyString else String c EmptyString
      | t => String c t
      end
  end.

(** [s.strip()] *)
Definition strip (s : string) : string := rstrip (lstrip s).

(** [not s] *)
Definition is_empty (s : string) : bool :=
  match s with
  | EmptyString => true
  | String _ _ => false
  end.

End Str.

(** ** File reading ([src/utils/file_utils.py]) *)

Module FileUtils.

Definition newline : string := String (ascii_of_nat 10) EmptyString.

(** What the readers see of the outside world.  [None] stands for any
    exception raised while a file is opened or parsed, which the readers
    catch; [Path(p).exists()] is called outside any [try] and raises
    [OSError] for some paths (a name that is too long, a directory that may
    not be searched). *)
Record world : Type := {
  path_exists : string -> outcome bool;              (* Path(p).exists() *)
  path_suffix : string -> string;                    (* Path(p).suffix *)
  path_name : string -> string;                      (* Path(p).name *)
  open_read : string -> option string;               (* open(p).read() *)
  pdf_pages : string -> option (list string);        (* extract_text() of each page *)
  docx_paragraphs : string -> option (list string);  (* text of each paragraph *)
  now : string                                       (* datetime.now().isoformat() *)
}.

Section Readers.

Variable w : world.

Definition read_text_file (file_path : string) : string :=
  match open_read w file_path with
  | Some content => content
  | None => ""
  end.

Definition read_pdf_file (file_path : string) : string :=
  match pdf_pages w file_path with
  | Some pages =>
      Str.strip (fold_left (fun text page => text ++ page ++ newline) pages "")
  | None => ""
  end.

Definition read_word_file (file_path : string) : string :=
  match docx_paragraphs w file_path with
  | Some paragraphs =>
      Str.strip (fold_left (fun text paragraph => text ++ paragraph ++ newline) paragraphs "")
  | None => ""
  end.

(** The three readers catch what they raise; [read_file] itself does not
    catch what the existence test raises. *)
Definition read_file (file_path : string) : outcome string :=
  match path_exists w file_path with
  | Raises message => Raises message
  | Returns found =>
      if negb found then Returns ""
      else
        let extension := Str.lower (path_suffix w file_path) in
        if (extension =? ".txt")%string then Returns (read_text_file file_path)
        else if (extension =? ".pdf")%string then Returns (read_pdf_file file_path)
        else if existsb (String.eqb extension) [".docx"; ".doc"] then
          Returns (read_word_file file_path)
        else Returns (read_text_file file_path)
  end.

End Readers.

End FileUtils.

(** ** CV analysis ([src/evaluation/cv_analyzer.py]) *)

Module CVAnalyzer.

(** The dictionaries the analyzer passes around.  A field of type [option]
    is a key that may be absent; the code reads it with [in] or [.get]. *)

(** [cv_skills] *)
Record skills : Type := {
  technical_skills : option (list (string * list string));  (* category -> skill names *)
  soft_skills : list string;
  experience_level : option string;
  years_experience : option string
}.

(** [job_requirements["required_skills"]] *)
Record required : Type := {
  required_technical_skills : option (list (string * list string));
  required_soft_skills : list string
}.

(** [job_requirements["experience_requirements"]] *)
Record experience : Type := {
  required_years_experience : option string;
  required_experience_level : option string
}.

(** [job_requirements] *)
Record requirements : Type := {
  required_skills : option required;
  experience_requirements : option experience;
  degree_level : string
}.

(** [skill_gaps].  The three risk keys are only set at the end of the
    [try] block.  [missing_technical_skills] is [list(set)] in the code, in
    no particular order; it is kept as the set.  The keys
    [missing_soft_skills], [missing_tools] and [education_gap] are never
    written after their initialisation and are left out. *)
Record gaps : Type := {
  missing_technical_skills : gset string;
  experience_gap : option string;
  gap_score : Py.num;
  overqualification_risk : option string;
  retention_risk : option string;
  risk_factors : option (list string)
}.

(** [llm_analysis["experience_assessment"]] *)
Record experience_assessment : Type := {
  assessed_years_experience : option string;
  experience_score : option Py.num
}.

(** [llm_analysis]; every key may be absent. *)
Record llm_analysis : Type := {
  llm_overall_score : option Py.num;
  llm_experience_assessment : option experience_assessment;
  llm_confidence : option Py.num
}.

(** [overall_assessment]: the score and the categories derived from it.
    The free-text lists ([strengths], [weaknesses], [recommendations]) quote
    [missing_technical_skills] in set-iteration order and are left out. *)
Record assessment : Type := {
  overall_score : Py.num;
  risk_level : string;
  hiring_recommendation : string;
  assessed_overqualification_risk : option string;
  assessed_retention_risk : option string;
  assessed_risk_factors : option (list string)
}.

(** [d.get(key, default)] *)
Definition get {A : Type} (field : option A) (default : A) : A :=
  match field with
  | Some v => v
  | None => default
  end.

Definition _perform_llm_analysis (cv_text job_description : string) : llm_analysis :=
  {| llm_overall_score := Some (Py.Int 75);
     llm_experience_assessment :=
       Some {| assessed_years_experience := Some "3-5 years";
               experience_score := Some (Py.Int 85) |};
     llm_confidence := Some (Py.Int 80) |}.

(** The [set] built by the two [for category, skills in ...items()] loops. *)
Definition all_skills (technical : list (string * list string)) : gset string :=
  fold_left (fun acc entry => acc ∪ list_to_set (map Str.lower (snd entry))) technical ∅.

Definition cv_all_skills (cv_skills : skills) : gset string :=
  match technical_skills cv_skills with
  | Some technical => all_skills technical
  | None => ∅
  end.

Definition job_all_skills (job_requirements : requirements) : gset string :=
  match required_skills job_requirements with
  | Some r =>
      match required_technical_skills r with
      | Some technical => all_skills technical
      | None => ∅
      end
  | None => ∅
  end.

Definition cv_exp_level (cv_skills : skills) : string :=
  get (experience_level cv_skills) "unknown".

Definition job_exp_level (job_requirements : requirements) : string :=
  match experience_requirements job_requirements with
  | Some e => get (required_experience_level e) "unknown"
  | None => "unknown"
  end.

(** The value stored in [gaps["experience_gap"]]. *)
Definition classify_experience_gap (cv_exp job_exp : string) : option string :=
  if negb (cv_exp =? "unknown")%string && negb (job_exp =? "unknown")%string then
    if (cv_exp =? "junior")%string && (job_exp =? "senior")%string then
      Some "junior_applying_for_senior"
    else if (cv_exp =? "senior")%string && (job_exp =? "junior")%string then
      Some "senior_applying_for_junior"
    else None
  else None.

Definition is_gap (experience_gap : option string) (label : string) : bool :=
  match experience_gap with
  | Some g => (g =? label)%string
  | None => false
  end.

(** [(missing_count / total_required) * 100] *)
Definition base_gap (missing_count total_required : Z) : option Py.num :=
  ratio ← Py.truediv (Py.Int missing_count) (Py.Int total_required);
  Some (Py.mul ratio (Py.Int 100)).

Definition adjust_for_experience (experience_gap : option string) (base_gap_score : Py.num)
    : Py.num :=
  if is_gap experience_gap "junior_applying_for_senior" then Py.add base_gap_score (Py.Int 30)
  else if is_gap experience_gap "senior_applying_for_junior" then Py.sub base_gap_score (Py.Int 20)
  else base_gap_score.

Definition clamp (x : Py.num) : Py.num := Py.max (Py.Int 0) (Py.min (Py.Int 100) x).

(** The value stored in [gaps["gap_score"]]; [None] when the division
    raises. *)
Definition compute_gap_score (experience_gap : option string)
    (total_required missing_count : Z) : option Py.num :=
  if total_required >? 0 then
    base_gap_score ← base_gap missing_count total_required;
    Some (clamp (adjust_for_experience experience_gap base_gap_score))
  else Some (Py.Int 0).

Definition _calculate_skill_gaps (cv_skills : skills) (job_requirements : requirements) : gaps :=
  let missing := job_all_skills job_requirements ∖ cv_all_skills cv_skills in
  let experience_gap :=
    classify_experience_gap (cv_exp_level cv_skills) (job_exp_level job_requirements) in
  let total_required := Z.of_nat (size (job_all_skills job_requirements)) in
  let missing_count := Z.of_nat (size missing) in
  match compute_gap_score experience_gap total_required missing_count with
  | Some score =>
      if is_gap experience_gap "senior_applying_for_junior" then
        {| missing_technical_skills := missing;
           experience_gap := experience_gap;
           gap_score := score;
           overqualification_risk := Some "high";
           retention_risk := Some "high";
           risk_factors := Some [ "Candidate may feel underutilized";
                                  "Higher salary expectations";
                                  "May leave for better opportunities";
                                  "Could be bored with junior-level tasks" ] |}
      else if is_gap experience_gap "junior_applying_for_senior" then
        {| missing_technical_skills := missing;
           experience_gap := experience_gap;
           gap_score := score;
           overqualification_risk := Some "low";
           retention_risk := Some "low";
           risk_factors := Some [ "Candidate may struggle with senior responsibilities";
                                  "Learning curve could be steep";
                                  "May need additional training and support" ] |}
      else
        {| missing_technical_skills := missing;
           experience_gap := experience_gap;
           gap_score := score;
           overqualification_risk := Some "medium";
           retention_risk := Some "medium";
           risk_factors := Some [ "Standard risk assessment" ] |}
  | None =>
      (* except Exception: the dictionary as it was when the division raised *)
      {| missing_technical_skills := missing;
         experience_gap := experience_gap;
         gap_score := Py.Int 0;
         overqualification_risk := None;
         retention_risk := None;
         risk_factors := None |}
  end.

Definition is_high (risk : option string) : bool :=
  match risk with
  | Some r => (r =? "high")%string
  | None => false
  end.

Definition _determine_risk_level (overall_score : Py.num) (skill_gaps : option gaps) : string :=
  if match skill_gaps with
     | Some g => is_high (overqualification_risk g)
     | None => false
     end
  then "high"
  else if Py.geb overall_score (Py.Int 80) then "low"
  else if Py.geb overall_score (Py.Int 60) then "medium"
  else "high".

Definition _determine_hiring_recommendation (overall_score : Py.num) (skill_gaps : gaps) : string :=
  if is_high (overqualification_risk skill_gaps) then "consider_with_caution"
  else if Py.geb overall_score (Py.Int 85) && Py.ltb (gap_score skill_gaps) (Py.Int 20) then
    "strong_hire"
  else if Py.geb overall_score (Py.Int 70) then "hire"
  else if Py.geb overall_score (Py.Int 50) then "consider"
  else "reject".

(** The component scores collected before the fallback test. *)
Definition component_scores (skill_gaps : gaps) (llm : llm_analysis) : list Py.num :=
  (match llm_overall_score llm with
   | Some s => if Py.gtb s (Py.Int 0) then [s] else []
   | None => []
   end)
  ++ [Py.sub (Py.Int 100) (gap_score skill_gaps)]
  ++ (match llm_experience_assessment llm with
      | Some e => [get (experience_score e) (Py.Int 50)]
      | None => []
      end).

(** The single score used when fewer than two components are available. *)
Definition skill_based_score (cv_skills : skills) (job_requirements : requirements)
    (skill_gaps : gaps) : Py.num :=
  let base_score := Py.sub (Py.Int 100) (gap_score skill_gaps) in
  let cv_exp := Str.lower (get (years_experience cv_skills) "unknown") in
  let job_exp :=
    Str.lower (match experience_requirements job_requirements with
               | Some e => get (required_years_experience e) "unknown"
               | None => "unknown"
               end) in
  if Str.contains "junior" cv_exp && Str.contains "senior" job_exp then
    Py.sub base_score (Py.Int 30)
  else if Str.contains "senior" cv_exp && Str.contains "junior" job_exp then
    Py.add base_score (Py.Int 10)
  else base_score.

(** [if d.get(key):] for a key that holds a text: present and not empty. *)
Definition truthy (field : option string) : bool :=
  match field with
  | Some text => negb (Str.is_empty text)
  | None => false
  end.

Definition _generate_overall_assessment (cv_skills : skills) (job_requirements : requirements)
    (skill_gaps : gaps) (llm : llm_analysis) : assessment :=
  let scores := component_scores skill_gaps llm in
  let scores :=
    if Z.of_nat (length scores) <? 2 then
      [skill_based_score cv_skills job_requirements skill_gaps]
    else scores in
  match Py.truediv (Py.sum scores) (Py.Int (Z.of_nat (length scores))) with
  | Some score =>
      {| overall_score := score;
         risk_level := _determine_risk_level score (Some skill_gaps);
         hiring_recommendation := _determine_hiring_recommendation score skill_gaps;
         assessed_overqualification_risk :=
           if truthy (overqualification_risk skill_gaps) then
             overqualification_risk skill_gaps
           else None;
         assessed_retention_risk :=
           if truthy (overqualification_risk skill_gaps) then
             Some (get (retention_risk skill_gaps) "medium")
           else None;
         assessed_risk_factors :=
           if truthy (overqualification_risk skill_gaps) then
             Some (get (risk_factors skill_gaps) [])
           else None |}
  | None =>
      (* except Exception: the initial dictionary *)
      {| overall_score := Py.Int 0;
         risk_level := "low";
         hiring_recommendation := "consider";
         assessed_overqualification_risk := None;
         assessed_retention_risk := None;
         assessed_risk_factors := None |}
  end.

(** *** Keyword extraction *)

Definition common_skills : list (string * list string) :=
  [ ("programming_languages",
     ["python"; "java"; "javascript"; "c++"; "c#"; "php"; "ruby"; "go"; "rust"]);
    ("frameworks",
     ["django"; "flask"; "react"; "angular"; "vue"; "spring"; "node.js"; "express"]);
    ("databases", ["mysql"; "postgresql"; "mongodb"; "redis"; "sqlite"; "oracle"]);
    ("tools",
     ["git"; "docker"; "kubernetes"; "jenkins"; "jira"; "confluence"; "aws"; "azure"; "gcp"]) ].

(** The experience level and the years label set by the CV extractor. *)
Definition cv_experience (cv_lower : string) : string * string :=
  if Str.any_in ["junior"; "entry"; "graduate"; "intern"] cv_lower then ("junior", "1-2")
  else if Str.any_in ["senior"; "lead"; "architect"; "principal"] cv_lower then ("senior", "5+")
  else if Str.any_in ["mid"; "intermediate"; "3"; "4"; "5"] cv_lower then ("mid-level", "3-5")
  else ("unknown", "unknown").

Definition _fallback_skill_extraction (cv_text : string) : skills :=
  let cv_lower := Str.lower cv_text in
  {| technical_skills :=
       Some (map (fun entry =>
                    (fst entry,
                     map Str.title
                         (List.filter (fun skill => Str.contains skill cv_lower) (snd entry))))
                 common_skills);
     soft_skills := [];
     experience_level := Some (fst (cv_experience cv_lower));
     years_experience := Some (snd (cv_experience cv_lower)) |}.

(** [if condition: skills.append(name)] *)
Definition when (condition : bool) (name : string) : list string :=
  if condition then [name] else [].

(** The experience level and the years label set by the requirement
    extractor. *)
Definition job_experience (job_lower : string) : string * string :=
  if Str.any_in ["senior"; "lead"; "architect"; "principal";
                 "5+"; "6+"; "7+"; "8+"; "9+"; "10+"] job_lower then ("senior", "5+")
  else if Str.any_in ["junior"; "entry"; "graduate"; "intern"; "1-3"; "0-2"] job_lower then
    ("junior", "1-3")
  else if Str.any_in ["mid"; "intermediate"; "3-5"; "4-6"] job_lower then ("mid-level", "3-5")
  else ("unknown", "unknown").

Definition _fallback_requirement_extraction (job_description : string) : requirements :=
  let job_lower := Str.lower job_description in
  let has := fun word => Str.contains word job_lower in
  {| required_skills :=
       Some {| required_technical_skills :=
                 Some [ ("programming_languages",
                         (when (has "python") "python" ++ when (has "java") "java"
                          ++ when (has "javascript") "javascript")%list);
                        ("frameworks",
                         (when (has "django" || has "flask") "django/flask"
                          ++ when (has "spring") "spring")%list);
                        ("databases", []);
                        ("tools",
                         (when (has "docker") "docker" ++ when (has "kubernetes") "kubernetes"
                          ++ when (has "ci/cd" || has "jenkins") "ci/cd")%list);
                        ("cloud_platforms",
                         when (has "aws" || has "azure" || has "gcp") "cloud platforms");
                        ("architecture",
                         (when (has "microservices") "microservices"
                          ++ when (has "system design") "system design")%list) ];
               required_soft_skills := [] |};
     experience_requirements :=
       Some {| required_years_experience := Some (snd (job_experience job_lower));
               required_experience_level := Some (fst (job_experience job_lower)) |};
     degree_level := if has "bachelor" then "bachelor's degree or higher" else "unknown" |}.

Definition _extract_cv_skills := _fallback_skill_extraction.
Definition _extract_job_requirements := _fallback_requirement_extraction.

(** *** The analysis entry point *)

Record metadata : Type := {
  cv_file : string;
  job_description_file : string;
  analysis_timestamp : string
}.

Record analysis : Type := {
  analysed_cv_skills : skills;
  analysed_job_requirements : requirements;
  skill_gaps : gaps;
  analysed_llm : llm_analysis;
  overall_assessment : assessment;
  analysis_metadata : option metadata
}.

(** What [analyze_cv_against_job] returns: [{"error": message}] or the
    analysis dictionary. *)
Inductive analysis_result : Type :=
| Error (message : string)
| Analysis (result : analysis).

Definition _perform_comprehensive_analysis (cv_text job_description : string) : analysis :=
  let cv_skills := _extract_cv_skills cv_text in
  let job_requirements := _extract_job_requirements job_description in
  let llm := _perform_llm_analysis cv_text job_description in
  let skill_gaps := _calculate_skill_gaps cv_skills job_requirements in
  {| analysed_cv_skills := cv_skills;
     analysed_job_requirements := job_requirements;
     skill_gaps := skill_gaps;
     analysed_llm := llm;
     overall_assessment :=
       _generate_overall_assessment cv_skills job_requirements skill_gaps llm;
     analysis_metadata := None |}.

(** Both files are read before either text is tested; what a read raises
    is caught by [except Exception as e: return {"error": str(e)}]. *)
Definition analyze_cv_against_job (w : FileUtils.world)
    (cv_file_path job_description_path : string) : analysis_result :=
  match FileUtils.read_file w cv_file_path with
  | Raises message => Error message
  | Returns cv_text =>
      match FileUtils.read_file w job_description_path with
      | Raises message => Error message
      | Returns job_description =>
          if Str.is_empty cv_text || Str.is_empty job_description then
            Error "Failed to read input files"
          else
            let analysis_result := _perform_comprehensive_analysis cv_text job_description in
            Analysis
              {| analysed_cv_skills := analysed_cv_skills analysis_result;
                 analysed_job_requirements := analysed_job_requirements analysis_result;
                 skill_gaps := skill_gaps analysis_result;
                 analysed_llm := analysed_llm analysis_result;
                 overall_assessment := overall_assessment analysis_result;
                 analysis_metadata :=
                   Some {| cv_file := FileUtils.path_name w cv_file_path;
                           job_description_file :=
                             FileUtils.path_name w job_description_path;
                           analysis_timestamp := FileUtils.now w |} |}
      end
  end.

End CVAnalyzer.

(** ** Interview scoring ([src/evaluation/interview_scorer.py]) *)

Module InterviewScorer.

(** [score_result["metadata"]] *)
Record metadata : Type := {
  fallback_scoring : option bool;
  question_length : option Z;
  response_length : Z;
  scoring_timestamp : option string;
  evaluation_criteria : option (list string)
}.

(** The dictionary returned for one question/response pair. *)
Record score_result : Type := {
  overall_score : Z;
  criteria_scores : list (string * Z);
  strengths : list string;
  weaknesses : list string;
  feedback : string;
  recommendation : string;
  confidence : Z;
  result_metadata : metadata;
  question_index : option Z
}.

(** One entry of [questions_responses]; either key may be absent.  The two
    values are texts, as the signature of [score_interview_response] has
    them; a pair that holds a value of another type is outside the model (the
    source skips it when either value is falsy and otherwise ends in its
    [except] clause). *)
Record question_response : Type := {
  question : option string;
  response : option string
}.

(** [results["overall_assessment"]]; with no questions only the first two
    keys are present. *)
Record assessment : Type := {
  assessed_overall_score : Py.num;
  performance_level : string;
  total_questions : option Z;
  consistency_score : option Py.num;
  top_strengths : option (list string);
  top_weaknesses : option (list string);
  assessed_recommendation : option string
}.

(** What [score_multiple_responses] returns, without the
    [summary_statistics] and the [recommendations] texts. *)
Record results : Type := {
  individual_scores : list score_result;
  overall_assessment : assessment
}.

Definition technical_keywords : list string :=
  ["python"; "java"; "database"; "api"; "algorithm"].

(** The score given for the length of the response alone. *)
Definition length_score (response_length : Z) : Z :=
  if response_length <? 50 then 3
  else if response_length <? 150 then 5
  else if response_length <? 300 then 7
  else 8.

Definition is_technical (question_lower : string) : bool :=
  Str.contains "technical" question_lower || Str.contains "programming" question_lower.

Definition keyword_matches (response_lower : string) : Z :=
  Z.of_nat (length (List.filter (fun keyword => Str.contains keyword response_lower)
                           technical_keywords)).

Definition _fallback_scoring (question response : string) (criteria : list string) : score_result :=
  let response_length := Str.len response in
  let question_lower := Str.lower question in
  let response_lower := Str.lower response in
  let overall_score := length_score response_length in
  let overall_score :=
    if is_technical question_lower then
      Z.min 10 (overall_score + keyword_matches response_lower)
    else overall_score in
  {| overall_score := overall_score;
     criteria_scores := [ ("technical_knowledge", overall_score);
                          ("communication", Z.min 10 (overall_score + 1));
                          ("problem_solving", overall_score);
                          ("cultural_fit", 6) ];
     strengths := ["Fallback scoring used"];
     weaknesses := ["Detailed analysis unavailable"];
     feedback := "Fallback scoring method used due to processing error";
     recommendation := if 6 <=? overall_score then "consider" else "reject";
     confidence := 50;
     result_metadata := {| fallback_scoring := Some true;
                           question_length := None;
                           response_length := response_length;
                           scoring_timestamp := None;
                           evaluation_criteria := None |};
     question_index := None |}.

Definition default_criteria : list string :=
  ["technical_knowledge"; "communication"; "problem_solving"; "cultural_fit"].

Section Scoring.

(** [self._get_timestamp()] *)
Variable now : string.

Definition score_interview_response (question response : string)
    (criteria : option (list string)) : score_result :=
  let criteria := CVAnalyzer.get criteria default_criteria in
  let scoring_result := _fallback_scoring question response criteria in
  {| overall_score := overall_score scoring_result;
     criteria_scores := criteria_scores scoring_result;
     strengths := strengths scoring_result;
     weaknesses := weaknesses scoring_result;
     feedback := feedback scoring_result;
     recommendation := recommendation scoring_result;
     confidence := confidence scoring_result;
     result_metadata := {| fallback_scoring := None;
                           question_length := Some (Str.len question);
                           response_length := Str.len response;
                           scoring_timestamp := Some now;
                           evaluation_criteria := Some criteria |};
     question_index := None |}.

(** [statistics.variance] on [int] data: the sample variance
    [sum((x - mean)^2) / (n - 1)], computed exactly as CPython 3.11 and later
    do; returned as an [int] when it is one, else as the nearest [float].
    The caller guards the [n < 2] case, where the library raises. *)
Definition variance (data : list Z) : Py.num :=
  let n := Z.of_nat (length data) in
  let mean := (inject_Z (fold_right Z.add 0%Z data) / inject_Z n)%Q in
  let ss := fold_right Qplus 0%Q
              (map (fun x => ((inject_Z x - mean) * (inject_Z x - mean))%Q) data) in
  let v := Qred (ss / inject_Z (n - 1)) in
  if (Qden v =? 1)%positive then Py.Int (Qnum v)
  else Py.Float (Py.Z2F (Qnum v) / Py.Z2F (Z.pos (Qden v))).

Definition _calculate_consistency_score (individual_scores : list score_result) : Py.num :=
  let scores := map overall_score individual_scores in
  if Z.of_nat (length scores) <? 2 then Py.Float 100
  else
    let variance := variance scores in
    let consistency :=
      Py.max (Py.Int 0) (Py.sub (Py.Int 100) (Py.mul variance (Py.Int 10))) in
    Py.round2 consistency.

Definition _determine_interview_recommendation (average_score : Py.num) : string :=
  if Py.geb average_score (Py.Float 8.5) then "strong_hire"
  else if Py.geb average_score (Py.Float 7.0) then "hire"
  else if Py.geb average_score (Py.Float 5.5) then "consider"
  else "reject".

(** [Counter(items)]: the counts, in first-seen order. *)
Fixpoint count_one (item : string) (counts : list (string * nat)) : list (string * nat) :=
  match counts with
  | [] => [(item, 1%nat)]
  | (key, n) :: rest =>
      if (item =? key)%string then (key, S n) :: rest else (key, n) :: count_one item rest
  end.

Definition counter (items : list string) : list (string * nat) :=
  fold_left (fun counts item => count_one item counts) items [].

Fixpoint insert_by_count (entry : string * nat) (sorted : list (string * nat))
    : list (string * nat) :=
  match sorted with
  | [] => [entry]
  | head :: rest =>
      if (snd head <? snd entry)%nat then entry :: sorted
      else head :: insert_by_count entry rest
  end.

(** [counts.most_common(n)]: by decreasing count, equal counts in
    first-seen order. *)
Definition most_common (n : nat) (counts : list (string * nat)) : list string :=
  map fst (firstn n (fold_left (fun sorted entry => insert_by_count entry sorted) counts [])).

(** [None] stands for an exception that escapes to the caller. *)
Definition _calculate_overall_assessment (individual_scores : list score_result)
    (total_score : Py.num) (num_questions : Z) : option assessment :=
  if num_questions =? 0 then
    Some {| assessed_overall_score := Py.Int 0;
            performance_level := "poor";
            total_questions := None;
            consistency_score := None;
            top_strengths := None;
            top_weaknesses := None;
            assessed_recommendation := None |}
  else
    average_score ← Py.truediv total_score (Py.Int num_questions);
    Some {| assessed_overall_score := Py.round2 average_score;
            performance_level :=
              if Py.geb average_score (Py.Float 8.5) then "excellent"
              else if Py.geb average_score (Py.Float 7.0) then "good"
              else if Py.geb average_score (Py.Float 5.5) then "fair"
              else "poor";
            total_questions := Some num_questions;
            consistency_score := Some (_calculate_consistency_score individual_scores);
            top_strengths :=
              Some (most_common 3 (counter (concat (map strengths individual_scores))));
            top_weaknesses :=
              Some (most_common 3 (counter (concat (map weaknesses individual_scores))));
            assessed_recommendation :=
              Some (_determine_interview_recommendation average_score) |}.

(** The state of the [for i, qr in enumerate(questions_responses)] loop. *)
Record loop_state : Type := {
  scored : list score_result;
  total_score : Z
}.

Definition loop_body (state : loop_state) (entry : Z * question_response) : loop_state :=
  let question := CVAnalyzer.get (question (snd entry)) "" in
  let response := CVAnalyzer.get (response (snd entry)) "" in
  if Str.is_empty question || Str.is_empty response then state
  else
    let r := score_interview_response question response None in
    let score_result :=
      {| overall_score := overall_score r;
         criteria_scores := criteria_scores r;
         strengths := strengths r;
         weaknesses := weaknesses r;
         feedback := feedback r;
         recommendation := recommendation r;
         confidence := confidence r;
         result_metadata := result_metadata r;
         question_index := Some (fst entry) |} in
    {| scored := scored state ++ [score_result];
       total_score := total_score state + overall_score score_result |}.

Definition enumerate {A : Type} (l : list A) : list (Z * A) :=
  combine (map Z.of_nat (seq 0 (length l))) l.

(** [None] stands for the [{"error": ...}] of the [except] clause. *)
Definition score_multiple_responses (questions_responses : list question_response)
    : option results :=
  let final :=
    fold_left loop_body (enumerate questions_responses)
              {| scored := []; total_score := 0 |} in
  overall ← _calculate_overall_assessment (scored final) (Py.Int (total_score final))
                                           (Z.of_nat (length questions_responses));
  Some {| individual_scores := scored final; overall_assessment := overall |}.

End Scoring.

End InterviewScorer.

(** ** The final recommendation ([src/evaluation/report_generator.py]) *)

Module ReportGenerator.

(** [cv_analysis] and [interview_scores] as far as the combiner reads them:
    [d.get("overall_assessment", {}).get("overall_score", 0)]. *)
Record assessed : Type := { overall_score : option Py.num }.
Record scored : Type := { overall_assessment : option assessed }.

Definition score_of (d : scored) : Py.num :=
  match overall_assessment d with
  | Some a => CVAnalyzer.get (overall_score a) (Py.Int 0)
  | None => Py.Int 0
  end.

(** [(cv_score * 0.4) + (interview_score * 10 * 0.6)] *)
Definition weighted (cv_score interview_score : Py.num) : Py.num :=
  Py.add (Py.mul cv_score (Py.Float 0.4))
         (Py.mul (Py.mul interview_score (Py.Int 10)) (Py.Float 0.6)).

(** The arithmetic and the comparisons do not raise on numbers, so the
    [except] clause (which returns "consider") has no counterpart. *)
Definition _generate_final_recommendation (cv_analysis interview_scores : scored) : string :=
  let cv_score := score_of cv_analysis in
  let interview_score := score_of interview_scores in
  let overall_score := weighted cv_score interview_score in
  if Py.geb overall_score (Py.Int 85) then "strong_hire"
  else if Py.geb overall_score (Py.Int 70) then "hire"
  else if Py.geb overall_score (Py.Int 50) then "consider"
  else "reject".

(** The two dictionaries that carry the given scores. *)
Definition with_score (s : Py.num) : scored :=
  {| overall_assessment := Some {| overall_score := Some s |} |}.

End ReportGenerator.

(** ** The specification's wording, for comparison with the code *)

Module Spec.

(** Gap score: the base score ([|missing| / |required| * 100] when
    [|required| > 0], else 0) plus 30 for a junior applying for a senior job,
    minus 20 for a senior applying for a junior job, clamped to [0, 100]. *)
Definition gap_score (experience_gap : option string) (missing required : Z) : Py.num :=
  let base :=
    if 0 <? required then Py.Float (Py.Z2F missing / Py.Z2F required * 100) else Py.Int 0 in
  let adjusted :=
    if CVAnalyzer.is_gap experience_gap "junior_applying_for_senior" then Py.add base (Py.Int 30)
    else if CVAnalyzer.is_gap experience_gap "senior_applying_for_junior" then
      Py.sub base (Py.Int 20)
    else base in
  Py.max (Py.Int 0) (Py.min (Py.Int 100) adjusted).

(** Rules checked in a fixed order, the first rule with a keyword in the
    text wins, [unknown] when none matches. *)
Fixpoint first_match (rules : list (list string * string)) (text : string) : string :=
  match rules with
  | [] => "unknown"
  | (keywords, level) :: rest =>
      if Str.any_in keywords text then level else first_match rest text
  end.

(** Consistency: [max(0, 100 - variance(scores) * 10)], and 100 with fewer
    than two scores. *)
Definition consistency (scores : list Z) : Py.num :=
  if Z.of_nat (length scores) <? 2 then Py.Float 100
  else Py.max (Py.Int 0)
              (Py.sub (Py.Int 100) (Py.mul (InterviewScorer.variance scores) (Py.Int 10))).

(** Mean of the scores rounded to two decimals, and 0 without scores. *)
Definition mean_score (scores : list Z) : Py.num :=
  match scores with
  | [] => Py.Int 0
  | _ =>
      Py.round2 (Py.Float (Py.Z2F (fold_right Z.add 0 scores)
                           / Py.Z2F (Z.of_nat (length scores))))
  end.

End Spec.

(** ** Sample inputs *)

Module Sample.

Import CVAnalyzer.

Definition cv (level : string) (technical : list (string * list string)) : skills :=
  {| technical_skills := Some technical;
     soft_skills := [];
     experience_level := Some level;
     years_experience := None |}.

Definition job (level : string) (technical : list (string * list string)) : requirements :=
  {| required_skills :=
       Some {| required_technical_skills := Some technical; required_soft_skills := [] |};
     experience_requirements :=
       Some {| required_years_experience := None; required_experience_level := Some level |};
     degree_level := "unknown" |}.

(** A requirement that only states the experience level. *)
Definition job_level_only (level : string) : requirements :=
  {| required_skills := None;
     experience_requirements :=
       Some {| required_years_experience := None; required_experience_level := Some level |};
     degree_level := "unknown" |}.

(** A scoring result that carries the given overall score. *)
Definition scored_as (score : Z) : InterviewScorer.score_result :=
  {| InterviewScorer.overall_score := score;
     InterviewScorer.criteria_scores := [];
     InterviewScorer.strengths := [];
     InterviewScorer.weaknesses := [];
     InterviewScorer.feedback := "";
     InterviewScorer.recommendation := "";
     InterviewScorer.confidence := 50;
     InterviewScorer.result_metadata :=
       {| InterviewScorer.fallback_scoring := None;
          InterviewScorer.question_length := None;
          InterviewScorer.response_length := 0;
          InterviewScorer.scoring_timestamp := None;
          InterviewScorer.evaluation_criteria := None |};
     InterviewScorer.question_index := None |}.

Definition pair (q r : string) : InterviewScorer.question_response :=
  {| InterviewScorer.question := Some q; InterviewScorer.response := Some r |}.

(** [n] copies of [s], one after the other. *)
Fixpoint repeat_string (n : nat) (s : string) : string :=
  match n with
  | O => ""
  | S n' => s ++ repeat_string n' s
  end.

(** A world in which [cv.txt] does not exist and the existence test of any
    other path raises [PermissionError], as for a file in a directory that
    may not be searched. *)
Definition unsearchable_job : FileUtils.world :=
  {| FileUtils.path_exists :=
       fun p => if (p =? "cv.txt")%string then Returns false
                else Raises "[Errno 13] Permission denied: '/root/job.txt'";
     FileUtils.path_suffix := fun _ => ".txt";
     FileUtils.path_name := fun p => p;
     FileUtils.open_read := fun _ => None;
     FileUtils.pdf_pages := fun _ => None;
     FileUtils.docx_paragraphs := fun _ => None;
     FileUtils.now := "" |}.

(** A world in which no file exists. *)
Definition empty_world : FileUtils.world :=
  {| FileUtils.path_exists := fun _ => Returns false;
     FileUtils.path_suffix := fun _ => "";
     FileUtils.path_name := fun p => p;
     FileUtils.open_read := fun _ => None;
     FileUtils.pdf_pages := fun _ => None;
     FileUtils.docx_paragraphs := fun _ => None;
     FileUtils.now := "" |}.

End Sample.


(** ** More Python primitives *)

Module PyMore.

(** [a / b] at a place where the code has checked that [b] is not zero. *)
Definition div (a b : Py.num) : Py.num := Py.Float (Py.to_float a / Py.to_float b).

(** [round(x, 1)] on a [float], as [Py.round2_float] with one decimal. *)
Definition round1_float (x : float) : float :=
  match Prim2SF x with
  | S754_finite s m e =>
      if 0 <=? e then x
      else
        let r := (Py.Z2F (Py.round_half_even (Z.pos m * 10) e) / 10)%float in
        if s then (- r)%float else r
  | _ => x
  end.

Definition round1 (a : Py.num) : Py.num :=
  match a with
  | Py.Int z => Py.Int z
  | Py.Float f => Py.Float (round1_float f)
  end.

(** [sum(l)] on [int]s. *)
Definition sum_int (l : list Z) : Z := fold_left Z.add l 0.

(** [len(l)] *)
Definition len {A : Type} (l : list A) : Z := Z.of_nat (length l).

(** [sep.join(l)] *)
Fixpoint join (sep : string) (l : list string) : string :=
  match l with
  | [] => ""
  | [s] => s
  | s :: rest => s ++ sep ++ join sep rest
  end.

(** [s.replace(old, new)] for single characters. *)
Fixpoint replace_char (old new : ascii) (s : string) : string :=
  match s with
  | EmptyString => EmptyString
  | String c s' => String (if Ascii.eqb c old then new else c) (replace_char old new s')
  end.

(** [d.get(key)] on a dictionary kept as its list of entries (the keys are
    distinct). *)
Fixpoint lookup {A : Type} (key : string) (d : list (string * A)) : option A :=
  match d with
  | [] => None
  | (k, v) :: rest => if (k =? key)%string then Some v else lookup key rest
  end.

(** [bool(l)] for a list held under an optional key: present and not
    empty. *)
Definition nonempty {A : Type} (l : option (list A)) : bool :=
  match l with
  | Some (_ :: _) => true
  | _ => false
  end.

End PyMore.

(** ** Interview statistics and recommendations
       ([src/evaluation/interview_scorer.py]) *)

Module InterviewStatistics.

Import InterviewScorer.

(** [stats["score_distribution"]] *)
Record distribution : Type := {
  excellent : Z;
  good : Z;
  fair : Z;
  poor : Z
}.

(** [stats["response_quality"]] *)
Record quality : Type := {
  average_length : Py.num;
  min_length : Z;
  max_length : Z
}.

(** [results["summary_statistics"]]; [response_quality] stays [{}] when no
    response was scored. *)
Record statistics : Type := {
  score_distribution : distribution;
  criteria_averages : list (string * Py.num);
  response_quality : option quality
}.

(** Everything [score_multiple_responses] returns. *)
Record full_results : Type := {
  scored_responses : list score_result;
  assessed : assessment;
  summary_statistics : statistics;
  recommendations : list string
}.

(** One step of [for score_result in individual_scores] over
    [score_ranges]. *)
Definition count_score (score_ranges : distribution) (score : Z) : distribution :=
  if Py.geb (Py.Int score) (Py.Float 8.5) then
    {| excellent := excellent score_ranges + 1; good := good score_ranges;
       fair := fair score_ranges; poor := poor score_ranges |}
  else if Py.geb (Py.Int score) (Py.Float 7.0) then
    {| excellent := excellent score_ranges; good := good score_ranges + 1;
       fair := fair score_ranges; poor := poor score_ranges |}
  else if Py.geb (Py.Int score) (Py.Float 5.5) then
    {| excellent := excellent score_ranges; good := good score_ranges;
       fair := fair score_ranges + 1; poor := poor score_ranges |}
  else
    {| excellent := excellent score_ranges; good := good score_ranges;
       fair := fair score_ranges; poor := poor score_ranges + 1 |}.

(** [if scores: stats["criteria_averages"][criteria] = round(avg, 2)] *)
Definition criterion_average (entry : string * list Z) : list (string * Py.num) :=
  match snd entry with
  | [] => []
  | scores =>
      [(fst entry,
        Py.round2 (PyMore.div (Py.Int (PyMore.sum_int scores)) (Py.Int (PyMore.len scores))))]
  end.

Definition response_lengths (individual_scores : list score_result) : list Z :=
  map (fun score_result => response_length (result_metadata score_result)) individual_scores.

Definition _calculate_summary_statistics (individual_scores : list score_result)
    (criteria_scores : list (string * list Z)) : statistics :=
  {| score_distribution :=
       fold_left count_score (map overall_score individual_scores)
                 {| excellent := 0; good := 0; fair := 0; poor := 0 |};
     criteria_averages := concat (map criterion_average criteria_scores);
     response_quality :=
       match response_lengths individual_scores with
       | [] => None
       | first :: rest =>
           Some {| average_length :=
                     PyMore.div (Py.Int (PyMore.sum_int (first :: rest)))
                                (Py.Int (PyMore.len (first :: rest)));
                   min_length := fold_left Z.min rest first;
                   max_length := fold_left Z.max rest first |}
       end |}.

Definition _generate_interview_recommendations (overall_assessment : assessment)
    (summary_stats : statistics) : list string :=
  let performance_level := performance_level overall_assessment in
  let by_performance :=
    if (performance_level =? "excellent")%string then
      [ "Strong technical interview performance - proceed to next round";
        "Consider fast-track hiring process" ]
    else if (performance_level =? "good")%string then
      [ "Solid interview performance - recommend for next stage";
        "Schedule follow-up technical assessment if needed" ]
    else if (performance_level =? "fair")%string then
      [ "Moderate interview performance - consider additional assessments";
        "Review specific areas of weakness before proceeding" ]
    else
      [ "Poor interview performance - recommend rejection";
        "Consider providing constructive feedback" ] in
  let consistency := CVAnalyzer.get (consistency_score overall_assessment) (Py.Int 50) in
  let by_consistency :=
    if Py.ltb consistency (Py.Int 70) then
      [ "Inconsistent performance across questions - investigate further" ]
    else [] in
  let by_criteria :=
    concat (map (fun entry =>
                   if Py.ltb (snd entry) (Py.Float 6.0) then
                     [ "Focus on improving " ++ PyMore.replace_char "_" " " (fst entry)
                       ++ " skills" ]
                   else [])
                (criteria_averages summary_stats)) in
  firstn 5 (by_performance ++ by_consistency ++ by_criteria)%list.

(** [criteria_scores[criteria].append(score)], when [criteria] is one of the
    keys. *)
Definition append_score (criteria_scores : list (string * list Z)) (criteria : string)
    (score : Z) : list (string * list Z) :=
  map (fun entry =>
         if (fst entry =? criteria)%string then (fst entry, (snd entry ++ [score])%list)
         else entry)
      criteria_scores.

Definition initial_criteria_scores : list (string * list Z) :=
  [ ("technical_knowledge", []); ("communication", []);
    ("problem_solving", []); ("cultural_fit", []) ].

Section Scoring.

Variable now : string.

(** The loop of [score_multiple_responses] with all three accumulators. *)
Record full_state : Type := {
  responses : loop_state;
  criteria_scores_so_far : list (string * list Z)
}.

Definition full_loop_body (state : full_state) (entry : Z * question_response) : full_state :=
  let question := CVAnalyzer.get (question (snd entry)) "" in
  let response := CVAnalyzer.get (response (snd entry)) "" in
  if Str.is_empty question || Str.is_empty response then state
  else
    let r := score_interview_response now question response None in
    let score_result :=
      {| overall_score := overall_score r;
         criteria_scores := criteria_scores r;
         strengths := strengths r;
         weaknesses := weaknesses r;
         feedback := feedback r;
         recommendation := recommendation r;
         confidence := confidence r;
         result_metadata := result_metadata r;
         question_index := Some (fst entry) |} in
    {| responses :=
         {| scored := scored (responses state) ++ [score_result];
            total_score := total_score (responses state) + overall_score score_result |};
       criteria_scores_so_far :=
         fold_left (fun acc item => append_score acc (fst item) (snd item))
                   (criteria_scores score_result) (criteria_scores_so_far state) |}.

(** [score_multiple_responses] with every key of its result; [None] stands
    for the [{"error": ...}] of the [except] clause. *)
Definition score_multiple_responses (questions_responses : list question_response)
    : option full_results :=
  let final :=
    fold_left full_loop_body (enumerate questions_responses)
              {| responses := {| scored := []; total_score := 0 |};
                 criteria_scores_so_far := initial_criteria_scores |} in
  let individual_scores := scored (responses final) in
  overall ← _calculate_overall_assessment individual_scores
               (Py.Int (total_score (responses final)))
               (Z.of_nat (length questions_responses));
  let stats := _calculate_summary_statistics individual_scores (criteria_scores_so_far final) in
  Some {| scored_responses := individual_scores;
          assessed := overall;
          summary_statistics := stats;
          recommendations := _generate_interview_recommendations overall stats |}.

End Scoring.

End InterviewStatistics.

(** ** The texts of the CV assessment and batch analysis
       ([src/evaluation/cv_analyzer.py]) *)

Module CVTexts.

Import CVAnalyzer.

(** The text keys of [llm_analysis]; each may be absent. *)
Record llm_texts : Type := {
  llm_strengths : option (list string);
  llm_weaknesses : option (list string);
  llm_recommendations : option (list string)
}.

(** [skill_gaps] as the text helpers read it: the lists in the order they
    have in the dictionary; an absent key reads as its default (the empty
    list, the score 0). *)
Record gap_lists : Type := {
  listed_missing_technical_skills : list string;
  listed_missing_tools : list string;
  listed_gap_score : Py.num
}.

(** [if key in tech_skills and tech_skills[key]: strengths.append(...)] *)
Definition category_strength (technical : list (string * list string)) (key label : string)
    (n : nat) : list string :=
  match PyMore.lookup key technical with
  | Some (skill :: skills) => [label ++ PyMore.join ", " (firstn n (skill :: skills))]
  | _ => []
  end.

Definition _extract_strengths_from_cv (cv_skills : skills) : list string :=
  let technical :=
    match technical_skills cv_skills with
    | Some tech_skills =>
        (category_strength tech_skills "programming_languages" "Strong programming skills: " 3
         ++ category_strength tech_skills "frameworks" "Experience with frameworks: " 2
         ++ category_strength tech_skills "tools" "Proficient with tools: " 2)%list
    | None => []
    end in
  let level :=
    match experience_level cv_skills with
    | Some level =>
        if negb (level =? "unknown")%string then ["Appropriate experience level: " ++ level]
        else []
    | None => []
    end in
  firstn 3 (technical ++ level)%list.

Definition _extract_weaknesses_from_gaps (skill_gaps : gap_lists) : list string :=
  let missing_tech :=
    match listed_missing_technical_skills skill_gaps with
    | [] => []
    | missing => ["Missing technical skills: " ++ PyMore.join ", " (firstn 3 missing)]
    end in
  let missing_tools :=
    match listed_missing_tools skill_gaps with
    | [] => []
    | missing => ["Missing tools: " ++ PyMore.join ", " (firstn 2 missing)]
    end in
  let severity :=
    if Py.gtb (listed_gap_score skill_gaps) (Py.Int 50) then
      ["Significant skill gaps identified"]
    else if Py.gtb (listed_gap_score skill_gaps) (Py.Int 20) then
      ["Moderate skill gaps identified"]
    else [] in
  firstn 3 (missing_tech ++ missing_tools ++ severity)%list.

(** No step of the [try] block raises on well-typed dictionaries, so the
    "Manual review recommended" of the [except] clause has no counterpart. *)
Definition _generate_recommendations (cv_skills : skills) (job_requirements : requirements)
    (skill_gaps : gap_lists) (llm : llm_analysis) (texts : llm_texts) : list string :=
  let from_llm := get (llm_recommendations texts) [] in
  let from_gaps :=
    match listed_missing_technical_skills skill_gaps with
    | [] => []
    | missing_skills =>
        ["Consider training in: " ++ PyMore.join ", " (firstn 3 missing_skills)]
    end in
  let from_experience :=
    match llm_experience_assessment llm with
    | Some exp_assessment =>
        if Py.ltb (get (experience_score exp_assessment) (Py.Int 0)) (Py.Int 70) then
          ["Consider additional experience in relevant technologies"]
        else []
    | None => []
    end in
  let recommendations := (from_llm ++ from_gaps ++ from_experience)%list in
  let recommendations :=
    if Z.of_nat (length recommendations) <? 3 then
      (recommendations ++ [ "Schedule technical interview to assess practical skills";
                            "Consider probationary period for skill development" ])%list
    else recommendations in
  firstn 5 recommendations.

(** The three text lists that [_generate_overall_assessment] stores. *)
Record assessment_texts : Type := {
  strengths : list string;
  weaknesses : list string;
  recommendations : list string
}.

Section Batch.

Variable w : FileUtils.world.

(** [Path(p).stem] *)
Variable path_stem : string -> string.

(** [batch_analyze_cvs]: the dictionary is kept as a finite map; the entry
    point catches its own exceptions, so the [except] clause of the loop is
    not reached. *)
Definition batch_analyze_cvs (cv_files : list string) (job_description_path : string)
    : gmap string analysis_result :=
  fold_left (fun results cv_file =>
               <[path_stem cv_file := analyze_cv_against_job w cv_file job_description_path]>
                 results)
            cv_files ∅.

End Batch.

End CVTexts.

(** ** The sections of the report ([src/evaluation/report_generator.py]) *)

Module ReportSections.

(** [cv_analysis["overall_assessment"]] as the report reads it. *)
Record cv_assessment : Type := {
  cv_score : option Py.num;
  cv_risk_level : option string;
  cv_strengths : option (list string);
  cv_weaknesses : option (list string)
}.

(** [cv_analysis["llm_analysis"]["experience_assessment"]] *)
Record experience_view : Type := {
  llm_years_experience : option string;
  llm_experience_quality : option string
}.

(** [cv_analysis]: an analysis, an error dictionary or any other
    dictionary; every key may be absent.  [cv_gap_score] is
    [cv_analysis["skill_gaps"]]: [None] without the key [skill_gaps],
    [Some None] without the key [gap_score]. *)
Record cv_analysis : Type := {
  cv_overall_assessment : option cv_assessment;
  cv_gap_score : option (option Py.num);
  cv_skills : option CVAnalyzer.skills;
  cv_experience_assessment : option (option experience_view)
}.

(** [interview_scores["overall_assessment"]] as the report reads it. *)
Record interview_assessment : Type := {
  interview_score : option Py.num;
  interview_consistency : option Py.num;
  interview_top_strengths : option (list string);
  interview_top_weaknesses : option (list string)
}.

Record interview_scores : Type := {
  interview_overall_assessment : option interview_assessment
}.

(** The two dictionaries as [_generate_final_recommendation] reads them. *)
Definition cv_scored (cv : cv_analysis) : ReportGenerator.scored :=
  {| ReportGenerator.overall_assessment :=
       match cv_overall_assessment cv with
       | Some a => Some {| ReportGenerator.overall_score := cv_score a |}
       | None => None
       end |}.

Definition interview_scored (iv : interview_scores) : ReportGenerator.scored :=
  {| ReportGenerator.overall_assessment :=
       match interview_overall_assessment iv with
       | Some a => Some {| ReportGenerator.overall_score := interview_score a |}
       | None => None
       end |}.

Definition _get_performance_level (score : Py.num) : string :=
  if Py.geb score (Py.Int 85) then "Excellent"
  else if Py.geb score (Py.Int 70) then "Good"
  else if Py.geb score (Py.Int 50) then "Fair"
  else "Poor".

(** *** Candidate information *)

Record candidate_info : Type := {
  name : string;
  email : string;
  phone : string;
  experience_level : string;
  years_experience : string;
  key_skills : list string;
  education : string
}.

Definition _extract_candidate_info (cv : cv_analysis) : candidate_info :=
  let from_skills (key : CVAnalyzer.skills -> option string) : option string :=
    match cv_skills cv with
    | Some skills => key skills
    | None => None
    end in
  let from_llm (key : experience_view -> option string) : option string :=
    match cv_experience_assessment cv with
    | Some (Some exp_assessment) => key exp_assessment
    | _ => None
    end in
  {| name := "Unknown";
     email := "Unknown";
     phone := "Unknown";
     experience_level :=
       CVAnalyzer.get (from_llm llm_experience_quality)
         (CVAnalyzer.get (from_skills CVAnalyzer.experience_level) "Unknown");
     years_experience :=
       CVAnalyzer.get (from_llm llm_years_experience)
         (CVAnalyzer.get (from_skills CVAnalyzer.years_experience) "Unknown");
     key_skills :=
       match cv_skills cv with
       | Some skills =>
           match CVAnalyzer.technical_skills skills with
           | Some tech_skills => concat (map (fun entry => firstn 3 (snd entry)) tech_skills)
           | None => []
           end
       | None => []
       end;
     education := "Unknown" |}.

(** *** Executive summary *)

Record candidate_overview : Type := {
  overview_name : string;
  overview_experience_level : string;
  overview_years_experience : string;
  overview_key_skills : list string
}.

Record summary_assessment : Type := {
  summary_cv_score : Py.num;
  summary_interview_score : Py.num;
  summary_overall_score : Py.num;
  summary_performance_level : string
}.

Record executive_summary : Type := {
  overview : candidate_overview;
  summary_overall_assessment : summary_assessment;
  key_findings : list string;
  final_recommendation : string
}.

(** [(cv_score * 0.4) + (interview_score * 0.6)] *)
Definition summary_score (cv_score interview_score : Py.num) : Py.num :=
  Py.add (Py.mul cv_score (Py.Float 0.4)) (Py.mul interview_score (Py.Float 0.6)).

(** [if d.get(key): key_findings.append(label + ', '.join(d[key][:2]))] *)
Definition finding (label : string) (items : option (list string)) : list string :=
  if PyMore.nonempty items then
    [label ++ PyMore.join ", " (firstn 2 (CVAnalyzer.get items []))]
  else [].

Definition _generate_executive_summary (cv : cv_analysis) (iv : interview_scores)
    (info : candidate_info) : executive_summary :=
  let cv_score := ReportGenerator.score_of (cv_scored cv) in
  let interview_score := ReportGenerator.score_of (interview_scored iv) in
  let overall_score := summary_score cv_score interview_score in
  {| overview :=
       {| overview_name := name info;
          overview_experience_level := experience_level info;
          overview_years_experience := years_experience info;
          overview_key_skills := firstn 5 (key_skills info) |};
     summary_overall_assessment :=
       {| summary_cv_score := PyMore.round1 cv_score;
          summary_interview_score := PyMore.round1 interview_score;
          summary_overall_score := PyMore.round1 overall_score;
          summary_performance_level := _get_performance_level overall_score |};
     key_findings :=
       firstn 5
         ((match cv_overall_assessment cv with
           | Some cv_overall =>
               finding "CV Strengths: " (cv_strengths cv_overall)
               ++ finding "CV Areas of Concern: " (cv_weaknesses cv_overall)
           | None => []
           end)
          ++ (match interview_overall_assessment iv with
              | Some interview_overall =>
                  finding "Interview Strengths: " (interview_top_strengths interview_overall)
                  ++ finding "Interview Areas for Improvement: "
                       (interview_top_weaknesses interview_overall)
              | None => []
              end))%list;
     final_recommendation :=
       ReportGenerator._generate_final_recommendation (cv_scored cv) (interview_scored iv) |}.

(** *** Risk assessment *)

(** A risk factor and the number its text quotes; the decimal rendering of
    the number is not modelled. *)
Inductive risk_factor : Type :=
| HighSkillGap (gap_score : Py.num)              (* "High skill gap score: {gap_score}%" *)
| LowInterviewPerformance (score : Py.num)       (* "Low interview performance: {score}/10" *)
| InconsistentInterview (consistency : Py.num).  (* "Inconsistent interview performance: ...%" *)

Record risk_assessment : Type := {
  overall_risk_level : string;
  risk_factors : list risk_factor;
  mitigation_strategies : list string;
  red_flags : list string
}.

Definition _generate_risk_assessment (cv : cv_analysis) (iv : interview_scores)
    : risk_assessment :=
  let cv_risk :=
    match cv_overall_assessment cv with
    | Some a => CVAnalyzer.get (cv_risk_level a) "medium"
    | None => "medium"
    end in
  let interview_score :=
    match interview_overall_assessment iv with
    | Some a => CVAnalyzer.get (interview_score a) (Py.Int 5)
    | None => Py.Int 5
    end in
  let overall_risk :=
    if (cv_risk =? "high")%string || Py.ltb interview_score (Py.Int 5) then "high"
    else if (cv_risk =? "low")%string && Py.geb interview_score (Py.Int 7) then "low"
    else "medium" in
  (* [gap_score] is a local variable bound only under [if "skill_gaps" in cv_analysis] *)
  let gap_score : option Py.num :=
    match cv_gap_score cv with
    | Some g => Some (CVAnalyzer.get g (Py.Int 0))
    | None => None
    end in
  let risk_factors :=
    ((match gap_score with
      | Some g => if Py.gtb g (Py.Int 30) then [HighSkillGap g] else []
      | None => []
      end)
     ++ (if Py.ltb interview_score (Py.Int 6) then [LowInterviewPerformance interview_score]
         else [])
     ++ (match interview_overall_assessment iv with
         | Some a =>
             let consistency := CVAnalyzer.get (interview_consistency a) (Py.Int 100) in
             if Py.ltb consistency (Py.Int 70) then [InconsistentInterview consistency] else []
         | None => []
         end))%list in
  let mitigation_strategies :=
    if (overall_risk =? "high")%string then
      [ "Consider probationary period"; "Implement additional training program";
        "Schedule follow-up assessments"; "Assign mentor for onboarding" ]
    else if (overall_risk =? "medium")%string then
      [ "Provide specific feedback"; "Set clear performance expectations";
        "Monitor progress closely" ]
    else [] in
  match gap_score with
  | Some g =>
      {| overall_risk_level := overall_risk;
         risk_factors := risk_factors;
         mitigation_strategies := mitigation_strategies;
         red_flags :=
           ((if Py.ltb interview_score (Py.Int 4) then ["Very poor interview performance"]
             else [])
            ++ (if Py.gtb g (Py.Int 50) then ["Significant skill gaps"] else []))%list |}
  | None =>
      (* [if gap_score > 50] raises NameError: the [except] clause returns the
         dictionary with [red_flags] as initialised *)
      {| overall_risk_level := overall_risk;
         risk_factors := risk_factors;
         mitigation_strategies := mitigation_strategies;
         red_flags := [] |}
  end.

(** *** What the pipeline hands to the report *)

(** The dictionary that [analyze_cv_against_job] returned, as the report
    reads it; [listed] are the three text lists of its overall assessment. *)
Definition of_analysis (result : CVAnalyzer.analysis_result) (listed : CVTexts.assessment_texts)
    : cv_analysis :=
  match result with
  | CVAnalyzer.Error _ =>
      {| cv_overall_assessment := None;
         cv_gap_score := None;
         cv_skills := None;
         cv_experience_assessment := None |}
  | CVAnalyzer.Analysis a =>
      {| cv_overall_assessment :=
           Some {| cv_score :=
                     Some (CVAnalyzer.overall_score (CVAnalyzer.overall_assessment a));
                   cv_risk_level :=
                     Some (CVAnalyzer.risk_level (CVAnalyzer.overall_assessment a));
                   cv_strengths := Some (CVTexts.strengths listed);
                   cv_weaknesses := Some (CVTexts.weaknesses listed) |};
         cv_gap_score := Some (Some (CVAnalyzer.gap_score (CVAnalyzer.skill_gaps a)));
         cv_skills := Some (CVAnalyzer.analysed_cv_skills a);
         cv_experience_assessment :=
           Some (match CVAnalyzer.llm_experience_assessment (CVAnalyzer.analysed_llm a) with
                 | Some e =>
                     Some {| llm_years_experience := CVAnalyzer.assessed_years_experience e;
                             llm_experience_quality := None |}
                 | None => None
                 end) |}
  end.

End ReportSections.

(** ** Notions used to state properties *)

Module Notions.

(** A pair that [score_multiple_responses] scores: both texts are present
    and not empty. *)
Definition answered (qr : InterviewScorer.question_response) : bool :=
  negb (Str.is_empty (CVAnalyzer.get (InterviewScorer.question qr) ""))
  && negb (Str.is_empty (CVAnalyzer.get (InterviewScorer.response qr) "")).

(** The score that [_fallback_scoring] gives to a pair. *)
Definition pair_score (qr : InterviewScorer.question_response) : Z :=
  InterviewScorer.overall_score
    (InterviewScorer._fallback_scoring
       (CVAnalyzer.get (InterviewScorer.question qr) "")
       (CVAnalyzer.get (InterviewScorer.response qr) "")
       InterviewScorer.default_criteria).

(** Recommendations from worst to best. *)
Definition rank (recommendation : string) : Z :=
  if (recommendation =? "strong_hire")%string then 3
  else if (recommendation =? "hire")%string then 2
  else if (recommendation =? "consider")%string then 1
  else 0.

(** Risk levels from worst to best. *)
Definition safety (risk_level : string) : Z :=
  if (risk_level =? "low")%string then 2
  else if (risk_level =? "medium")%string then 1
  else 0.

(** The number of scores that satisfy [p]. *)
Definition count_if (p : Z -> bool) (scores : list Z) : Z :=
  Z.of_nat (length (List.filter p scores)).

(** Every character is white space. *)
Fixpoint whitespace_only (s : string) : bool :=
  match s with
  | EmptyString => true
  | String c s' => Str.is_space c && whitespace_only s'
  end.

(** All keywords of the CV extractor's table. *)
Definition cv_keywords : list string := concat (map snd CVAnalyzer.common_skills).

(** All names the requirement extractor can put into the required skills. *)
Definition job_keywords : list string :=
  [ "python"; "java"; "javascript"; "django/flask"; "spring"; "docker"; "kubernetes";
    "ci/cd"; "cloud platforms"; "microservices"; "system design" ].

(** The integers from [lo] to [hi]. *)
Definition range (lo hi : Z) : list Z :=
  map (fun i => lo + Z.of_nat i) (seq 0 (Z.to_nat (hi - lo + 1))).

(** The number of responses a score distribution accounts for. *)
Definition distribution_total (d : InterviewStatistics.distribution) : Z :=
  InterviewStatistics.excellent d + InterviewStatistics.good d
  + InterviewStatistics.fair d + InterviewStatistics.poor d.

End Notions.

(** ** Further sample values *)

Module Cases.

(** Skill gaps with the given score and nothing else of note. *)
Definition gaps_scored (score : Py.num) : CVAnalyzer.gaps :=
  {| CVAnalyzer.missing_technical_skills := ∅;
     CVAnalyzer.experience_gap := Some "none";
     CVAnalyzer.gap_score := score;
     CVAnalyzer.overqualification_risk := None;
     CVAnalyzer.retention_risk := None;
     CVAnalyzer.risk_factors := None |}.

(** A world that holds the given text files and nothing else. *)
Definition text_files (files : list (string * string)) : FileUtils.world :=
  {| FileUtils.path_exists :=
       fun p => Returns (match PyMore.lookup p files with Some _ => true | None => false end);
     FileUtils.path_suffix := fun _ => ".txt";
     FileUtils.path_name := fun p => p;
     FileUtils.open_read := fun p => PyMore.lookup p files;
     FileUtils.pdf_pages := fun _ => None;
     FileUtils.docx_paragraphs := fun _ => None;
     FileUtils.now := "2024-01-01T00:00:00" |}.

(** An assessment of an interview that carries the given score only. *)
Definition interview_scored_as (score : Py.num) : ReportSections.interview_scores :=
  {| ReportSections.interview_overall_assessment :=
       Some {| ReportSections.interview_score := Some score;
               ReportSections.interview_consistency := None;
               ReportSections.interview_top_strengths := None;
               ReportSections.interview_top_weaknesses := None |} |}.

Definition no_texts : CVTexts.assessment_texts :=
  {| CVTexts.strengths := []; CVTexts.weaknesses := []; CVTexts.recommendations := [] |}.

(** A senior Python CV in [cv.txt] and a senior Python job in [job.txt]. *)
Definition senior_python_files : FileUtils.world :=
  text_files [ ("cv.txt", "Senior Python developer");
               ("job.txt", "Senior Python developer wanted") ].

(** The executive summary for these files and an interview scored 10.0. *)
Definition senior_python_summary : ReportSections.executive_summary :=
  let cv :=
    ReportSections.of_analysis
      (CVAnalyzer.analyze_cv_against_job senior_python_files "cv.txt" "job.txt") no_texts in
  ReportSections._generate_executive_summary cv
    (interview_scored_as (Py.Float (Py.Z2F 1000 / 100)))
    (ReportSections._extract_candidate_info cv).

(** A world whose only file is a PDF of two blank pages. *)
Definition blank_pdf : FileUtils.world :=
  {| FileUtils.path_exists := fun p => Returns (p =? "cv.pdf")%string;
     FileUtils.path_suffix := fun _ => ".PDF";
     FileUtils.path_name := fun p => p;
     FileUtils.open_read := fun _ => None;
     FileUtils.pdf_pages := fun _ => Some ["  "; FileUtils.newline];
     FileUtils.docx_paragraphs := fun _ => None;
     FileUtils.now := "2024-01-01T00:00:00" |}.

End Cases.

(** * Properties *)

(** ** The Python primitives on sample values *)

Example round2_examples :
  Py.round2_float 86.66666666666667 = 86.67%float /\
  Py.round2_float 2.675 = 2.67%float /\
  Py.round2_float 0.125 = 0.12%float /\
  Py.round2_float 1.5 = 1.5%float /\
  Py.round2_float (-0.001) = (-0)%float.
Proof. vm_compute. repeat split. Qed.

Example str_examples :
  Str.title "node.js" = "Node.Js" /\ Str.title "c++" = "C++" /\
  Str.lower "Senior Dev" = "senior dev" /\
  Str.contains "java" "javascript" = true /\ Str.contains "" "" = true /\
  Str.contains "api" "ap" = false /\ Str.strip ("  a b" ++ FileUtils.newline ++ " ") = "a b".
Proof. vm_compute. repeat split. Qed.

(** ** Facts about binary64 conversions and comparisons *)

Section FloatFacts.

Lemma float_ltb_leb (x y : float) :
  PrimFloat.ltb x y = true -> PrimFloat.leb x y = true.
Proof.
  rewrite FloatAxioms.ltb_spec, FloatAxioms.leb_spec. unfold SFltb, SFleb.
  destruct (SFcompare (Prim2SF x) (Prim2SF y)) as [[]|]; congruence.
Qed.

Lemma digits2_pos_iter_xO (p k : positive) :
  digits2_pos (Pos.iter xO p k) = (digits2_pos p + k)%positive.
Proof.
  induction k using Pos.peano_ind.
  - simpl. lia.
  - rewrite Pos.iter_succ. simpl. rewrite IHk. lia.
Qed.

Lemma digits2_pos_lower_bound (p : positive) :
  2 ^ (Z.pos (digits2_pos p) - 1) <= Z.pos p.
Proof.
  induction p as [p IH | p IH |]; simpl digits2_pos.
  - replace (Z.pos (Pos.succ (digits2_pos p)) - 1)
      with (Z.succ (Z.pos (digits2_pos p) - 1)) by lia.
    rewrite Z.pow_succ_r by lia. lia.
  - replace (Z.pos (Pos.succ (digits2_pos p)) - 1)
      with (Z.succ (Z.pos (digits2_pos p) - 1)) by lia.
    rewrite Z.pow_succ_r by lia. lia.
  - simpl. lia.
Qed.

Lemma digits2_pos_le_prec (p : positive) :
  Z.pos p < 2 ^ 53 -> Z.pos (digits2_pos p) <= 53.
Proof.
  intros Hp.
  destruct (Z_le_gt_dec (Z.pos (digits2_pos p)) 53) as [|Hgt]; [assumption|].
  exfalso. pose proof (digits2_pos_lower_bound p) as Hl.
  assert (2 ^ 53 <= 2 ^ (Z.pos (digits2_pos p) - 1)) by (apply Z.pow_le_mono_r; lia).
  lia.
Qed.

(** A mantissa that already sits on its exponent is neither shifted nor
    rounded. *)
Lemma shr_fexp_canonical (m : positive) (e : Z) :
  fexp prec emax (Z.pos (digits2_pos m) + e) = e ->
  shr_fexp prec emax (Z.pos m) e loc_Exact =
    ({| shr_m := Z.pos m; shr_r := false; shr_s := false |}, e).
Proof.
  intros H. unfold shr_fexp. cbn [Zdigits2 shr_record_of_loc].
  rewrite H, Z.sub_diag. reflexivity.
Qed.

Lemma binary_round_aux_canonical (m : positive) (e : Z) :
  fexp prec emax (Z.pos (digits2_pos m) + e) = e ->
  e <= emax - prec ->
  binary_round_aux prec emax false (Z.pos m) e loc_Exact = S754_finite false m e.
Proof.
  intros H He. unfold binary_round_aux.
  rewrite (shr_fexp_canonical m e H).
  cbn [shr_m loc_of_shr_record round_nearest_even].
  rewrite (shr_fexp_canonical m e H).
  cbn [shr_m].
  apply Z.leb_le in He. rewrite He. reflexivity.
Qed.

Lemma binary_round_small (p : positive) :
  Z.pos p < 2 ^ 53 ->
  exists m e, binary_round prec emax false p 0 = S754_finite false m e.
Proof.
  intros Hp. pose proof (digits2_pos_le_prec p Hp) as Hd.
  unfold binary_round, shl_align.
  assert (Hfexp : fexp prec emax (Z.pos (digits2_pos p) + 0) = Z.pos (digits2_pos p) - 53).
  { unfold fexp, SpecFloat.emin, prec, emax. lia. }
  rewrite Hfexp.
  destruct (Z.pos (digits2_pos p) - 53 - 0) as [|q|k] eqn:Hk; try lia.
  - exists p, 0. apply binary_round_aux_canonical.
    + unfold fexp, SpecFloat.emin, prec, emax. lia.
    + unfold prec, emax. lia.
  - exists (Pos.iter xO p k), (Z.pos (digits2_pos p) - 53).
    apply binary_round_aux_canonical.
    + rewrite digits2_pos_iter_xO. unfold fexp, SpecFloat.emin, prec, emax. lia.
    + unfold prec, emax. lia.
Qed.

(** The [float] of a positive [int] below [2^53] is a positive finite
    number. *)
Lemma Z2F_finite (z : Z) :
  0 < z < 2 ^ 53 -> exists m e, Prim2SF (Py.Z2F z) = S754_finite false m e.
Proof.
  intros [Hlo Hhi]. unfold Py.Z2F.
  destruct (z <? 0) eqn:E; [apply Z.ltb_lt in E; lia|].
  rewrite of_uint63_spec, Uint63.of_Z_spec.
  rewrite Z.mod_small.
  2:{ split; [lia|]. apply Z.lt_trans with (2 ^ 53); [assumption|]. reflexivity. }
  destruct z as [|p|p]; try lia.
  apply (binary_round_small p Hhi).
Qed.

Lemma zero_div_Z2F (z : Z) : 0 < z < 2 ^ 53 -> (0 / Py.Z2F z)%float = 0%float.
Proof.
  intros H. destruct (Z2F_finite z H) as (m & e & Hm).
  apply Prim2SF_inj. rewrite FloatAxioms.div_spec, Hm. reflexivity.
Qed.

End FloatFacts.

(** ** The gap calculator *)

Section GapCalculator.

Import CVAnalyzer.

Lemma clamp_bounds (x : Py.num) :
  Py.leb (Py.Int 0) (clamp x) = true /\ Py.leb (clamp x) (Py.Int 100) = true.
Proof.
  unfold clamp, Py.max, Py.min, Py.gtb.
  destruct x as [z | f].
  - cbn [Py.ltb]. destruct (z <? 100) eqn:Hz.
    + cbn [Py.ltb]. destruct (0 <? z) eqn:H0; cbn [Py.leb]; split; lia.
    + cbn. split; reflexivity.
  - destruct (Py.ltb (Py.Float f) (Py.Int 100)) eqn:Hf.
    + destruct (Py.ltb (Py.Int 0) (Py.Float f)) eqn:H0.
      * split; [apply float_ltb_leb, H0 | apply float_ltb_leb, Hf].
      * split; reflexivity.
    + split; reflexivity.
Qed.

Lemma truediv_int_some (a b : Z) :
  b <> 0 -> Py.truediv (Py.Int a) (Py.Int b) = Some (Py.Float (Py.Z2F a / Py.Z2F b)).
Proof.
  intros Hb. unfold Py.truediv, Py.is_zero.
  destruct (b =? 0) eqn:E; [apply Z.eqb_eq in E; contradiction | reflexivity].
Qed.

(** The division is guarded: the gap score is always computed. *)
Lemma compute_gap_score_some (experience_gap : option string) (total_required missing_count : Z) :
  compute_gap_score experience_gap total_required missing_count =
    Some (if total_required >? 0 then
            clamp (adjust_for_experience experience_gap
                     (Py.Float (Py.Z2F missing_count / Py.Z2F total_required * 100)))
          else Py.Int 0).
Proof.
  unfold compute_gap_score, base_gap.
  destruct (total_required >? 0) eqn:Ht; [|reflexivity].
  rewrite truediv_int_some by lia. reflexivity.
Qed.

Lemma skill_gaps_score (cv_skills : skills) (job_requirements : requirements) :
  let total_required := Z.of_nat (size (job_all_skills job_requirements)) in
  let missing_count :=
    Z.of_nat (size (job_all_skills job_requirements ∖ cv_all_skills cv_skills)) in
  let g := _calculate_skill_gaps cv_skills job_requirements in
  gap_score g =
    (if total_required >? 0 then
       clamp (adjust_for_experience (experience_gap g)
                (Py.Float (Py.Z2F missing_count / Py.Z2F total_required * 100)))
     else Py.Int 0)
  /\ experience_gap g =
       classify_experience_gap (cv_exp_level cv_skills) (job_exp_level job_requirements)
  /\ missing_technical_skills g = job_all_skills job_requirements ∖ cv_all_skills cv_skills
  /\ overqualification_risk g =
       Some (if is_gap (experience_gap g) "senior_applying_for_junior" then "high"
             else if is_gap (experience_gap g) "junior_applying_for_senior" then "low"
             else "medium").
Proof.
  cbv zeta. unfold _calculate_skill_gaps.
  rewrite compute_gap_score_some.
  destruct (is_gap _ "senior_applying_for_junior") eqn:Hs.
  - cbn [gap_score experience_gap missing_technical_skills overqualification_risk].
    rewrite Hs. repeat split; reflexivity.
  - destruct (is_gap _ "junior_applying_for_senior") eqn:Hj;
      cbn [gap_score experience_gap missing_technical_skills overqualification_risk];
      rewrite Hs, ?Hj; repeat split; reflexivity.
Qed.

Lemma in_range (lo hi z : Z) : lo <= z <= hi -> In z (Notions.range lo hi).
Proof.
  intros H. unfold Notions.range. apply in_map_iff. exists (Z.to_nat (z - lo)).
  split; [lia|]. apply in_seq. lia.
Qed.

(** With up to 200 required skills of which more than a fifth are missing,
    the base score reduced by 20 stays above 0. *)
Lemma reduced_gap_positive_on_grid :
  forallb (fun total_required =>
    forallb (fun missing_count =>
      negb (total_required <? 5 * missing_count)
      || Py.gtb (clamp (Py.sub (Py.Float (Py.Z2F missing_count / Py.Z2F total_required * 100))
                               (Py.Int 20)))
                (Py.Int 0))
      (Notions.range 0 total_required))
    (Notions.range 1 200)
  = true.
Proof. vm_compute. reflexivity. Qed.

End GapCalculator.

Section GapClaims.

Import CVAnalyzer.

(** C3: for every pair of profiles the gap score lies in [0, 100], whatever
    the +30 / -20 experience adjustment; with an empty required-skill set it
    is exactly 0; and the division in the gap calculator never raises. *)
Theorem gap_score_within_bounds (cv_skills : skills) (job_requirements : requirements) :
  let g := _calculate_skill_gaps cv_skills job_requirements in
  let total_required := Z.of_nat (size (job_all_skills job_requirements)) in
  let missing_count :=
    Z.of_nat (size (job_all_skills job_requirements ∖ cv_all_skills cv_skills)) in
  Py.leb (Py.Int 0) (gap_score g) = true
  /\ Py.leb (gap_score g) (Py.Int 100) = true
  /\ (job_all_skills job_requirements = ∅ -> gap_score g = Py.Int 0)
  /\ is_Some (compute_gap_score (experience_gap g) total_required missing_count).
Proof.
  cbv zeta.
  destruct (skill_gaps_score cv_skills job_requirements) as (Hscore & _).
  cbv zeta in Hscore. rewrite Hscore.
  repeat split.
  - destruct (_ >? 0); [apply clamp_bounds | reflexivity].
  - destruct (_ >? 0); [apply clamp_bounds | reflexivity].
  - intros Hempty. rewrite Hempty, size_empty. reflexivity.
  - rewrite compute_gap_score_some. eexists. reflexivity.
Qed.

(** A junior without the one required skill applying for a senior job: the
    adjusted score 130 is clamped to 100. *)
Lemma gap_score_within_bounds_witness :
  gap_score (_calculate_skill_gaps (Sample.cv "junior" [])
                                   (Sample.job "senior" [("tools", ["docker"])]))
    = Py.Int 100
  /\ Py.leb (gap_score (_calculate_skill_gaps (Sample.cv "junior" [])
                          (Sample.job "senior" [("tools", ["docker"])])))
            (Py.Int 100) = true.
Proof.
  split.
  - vm_compute. reflexivity.
  - exact (proj1 (proj2 (gap_score_within_bounds
                           (Sample.cv "junior" [])
                           (Sample.job "senior" [("tools", ["docker"])])))).
Defined.

Lemma classify_experience_gap_cases (cv_exp job_exp : string) :
  classify_experience_gap cv_exp job_exp =
    (if (cv_exp =? "junior")%string && (job_exp =? "senior")%string then
       Some "junior_applying_for_senior"
     else if (cv_exp =? "senior")%string && (job_exp =? "junior")%string then
       Some "senior_applying_for_junior"
     else None).
Proof.
  unfold classify_experience_gap.
  destruct (String.eqb_spec cv_exp "junior"), (String.eqb_spec job_exp "senior"),
    (String.eqb_spec cv_exp "senior"), (String.eqb_spec job_exp "junior"),
    (String.eqb_spec cv_exp "unknown"), (String.eqb_spec job_exp "unknown");
    subst; try discriminate; reflexivity.
Qed.

(** C4, as the code has it: the experience gap is classified from the two
    levels as stated; with a non-empty required set the gap score is the base
    score plus 30 / minus 20, clamped to [0, 100]; with an empty required set
    the gap score is 0 whatever the experience gap. *)
Theorem gap_score_formula (cv_skills : skills) (job_requirements : requirements) :
  let g := _calculate_skill_gaps cv_skills job_requirements in
  let cv_exp := cv_exp_level cv_skills in
  let job_exp := job_exp_level job_requirements in
  let required := Z.of_nat (size (job_all_skills job_requirements)) in
  let missing :=
    Z.of_nat (size (job_all_skills job_requirements ∖ cv_all_skills cv_skills)) in
  experience_gap g =
    (if (cv_exp =? "junior")%string && (job_exp =? "senior")%string then
       Some "junior_applying_for_senior"
     else if (cv_exp =? "senior")%string && (job_exp =? "junior")%string then
       Some "senior_applying_for_junior"
     else None)
  /\ (0 < required -> gap_score g = Spec.gap_score (experience_gap g) missing required)
  /\ (required = 0 -> gap_score g = Py.Int 0).
Proof.
  cbv zeta.
  destruct (skill_gaps_score cv_skills job_requirements) as (Hscore & Hgap & _).
  cbv zeta in Hscore. rewrite Hscore, Hgap. clear Hscore Hgap.
  split; [apply classify_experience_gap_cases|]. split.
  - intros Hpos. unfold Spec.gap_score.
    assert (Hgt : (Z.of_nat (size (job_all_skills job_requirements)) >? 0) = true) by lia.
    assert (Hlt : (0 <? Z.of_nat (size (job_all_skills job_requirements))) = true) by lia.
    rewrite Hgt, Hlt. reflexivity.
  - intros Hzero. rewrite Hzero. reflexivity.
Qed.

(** A junior who misses one of two required skills and applies for a senior
    job: 50 + 30 = 80. *)
Lemma gap_score_formula_witness :
  gap_score (_calculate_skill_gaps
               (Sample.cv "junior" [("programming_languages", ["Python"])])
               (Sample.job "senior" [("programming_languages", ["python"; "java"])]))
  = Spec.gap_score (Some "junior_applying_for_senior") 1 2.
Proof.
  apply (proj1 (proj2 (gap_score_formula
                         (Sample.cv "junior" [("programming_languages", ["Python"])])
                         (Sample.job "senior" [("programming_languages", ["python"; "java"])])))).
  vm_compute. reflexivity.
Defined.

(** C4 as stated fails: for a junior applying for a senior job that lists no
    required skill the code returns 0, where base 0 plus 30 would give 30. *)
Lemma gap_score_formula_counterexample :
  experience_gap (_calculate_skill_gaps (Sample.cv "junior" []) (Sample.job "senior" []))
    = Some "junior_applying_for_senior"
  /\ gap_score (_calculate_skill_gaps (Sample.cv "junior" []) (Sample.job "senior" []))
     = Py.Int 0
  /\ Spec.gap_score (Some "junior_applying_for_senior") 0 0 = Py.Int 30.
Proof. vm_compute. repeat split. Qed.

Lemma scores_nonempty (cv_skills : skills) (job_requirements : requirements)
    (skill_gaps : gaps) (llm : llm_analysis) :
  let scores := component_scores skill_gaps llm in
  let scores :=
    if Z.of_nat (length scores) <? 2 then
      [skill_based_score cv_skills job_requirements skill_gaps]
    else scores in
  Z.of_nat (length scores) <> 0.
Proof.
  cbv zeta. destruct (Z.of_nat (length (component_scores skill_gaps llm)) <? 2) eqn:E.
  - simpl. lia.
  - apply Z.ltb_ge in E. lia.
Qed.

(** The recommendation of the overall assessment is the one
    [_determine_hiring_recommendation] gives for the averaged score. *)
Lemma overall_assessment_recommendation (cv_skills : skills) (job_requirements : requirements)
    (skill_gaps : gaps) (llm : llm_analysis) :
  exists score,
    overall_score (_generate_overall_assessment cv_skills job_requirements skill_gaps llm) = score
    /\ hiring_recommendation
         (_generate_overall_assessment cv_skills job_requirements skill_gaps llm)
       = _determine_hiring_recommendation score skill_gaps.
Proof.
  unfold _generate_overall_assessment.
  pose proof (scores_nonempty cv_skills job_requirements skill_gaps llm) as Hne.
  cbv zeta in Hne. unfold Py.truediv, Py.is_zero.
  destruct (_ =? 0) eqn:E; [apply Z.eqb_eq in E; contradiction|].
  eexists. split; reflexivity.
Qed.

(** C5, as the code has it: whenever the gap calculator classifies a senior
    applying for a junior job, the overqualification risk is high and the
    hiring recommendation is consider_with_caution for every overall score;
    the gap score is the base score reduced by 20 and clamped, which is 0
    when no required skill is missing and is positive when more than 20% of
    the required skills (at most 200 of them) are missing. *)
Theorem senior_for_junior_assessment (cv_skills : skills) (job_requirements : requirements)
    (llm : llm_analysis) (any_score : Py.num) :
  let g := _calculate_skill_gaps cv_skills job_requirements in
  let required := Z.of_nat (size (job_all_skills job_requirements)) in
  let missing :=
    Z.of_nat (size (job_all_skills job_requirements ∖ cv_all_skills cv_skills)) in
  experience_gap g = Some "senior_applying_for_junior" ->
  overqualification_risk g = Some "high"
  /\ _determine_hiring_recommendation any_score g = "consider_with_caution"
  /\ hiring_recommendation (_generate_overall_assessment cv_skills job_requirements g llm)
     = "consider_with_caution"
  /\ gap_score g =
       (if 0 <? required then
          Py.max (Py.Int 0)
                 (Py.min (Py.Int 100)
                         (Py.sub (Py.Float (Py.Z2F missing / Py.Z2F required * 100)) (Py.Int 20)))
        else Py.Int 0)
  /\ (missing = 0 -> required < 2 ^ 53 -> gap_score g = Py.Int 0)
  /\ (required <= 200 -> required < 5 * missing -> Py.gtb (gap_score g) (Py.Int 0) = true).
Proof.
  cbv zeta. intros Hgap.
  destruct (skill_gaps_score cv_skills job_requirements) as (Hscore & _ & _ & Hrisk).
  cbv zeta in Hscore. rewrite Hgap in Hscore, Hrisk. cbn in Hrisk.
  assert (Hrec : forall score,
             _determine_hiring_recommendation score
               (_calculate_skill_gaps cv_skills job_requirements) = "consider_with_caution").
  { intros score. unfold _determine_hiring_recommendation. rewrite Hrisk. reflexivity. }
  split; [exact Hrisk|]. split; [apply Hrec|]. split.
  { destruct (overall_assessment_recommendation cv_skills job_requirements
                (_calculate_skill_gaps cv_skills job_requirements) llm) as (score & _ & Hr).
    rewrite Hr. apply Hrec. }
  assert (Hformula :
            gap_score (_calculate_skill_gaps cv_skills job_requirements) =
            (if 0 <? Z.of_nat (size (job_all_skills job_requirements)) then
               Py.max (Py.Int 0)
                 (Py.min (Py.Int 100)
                    (Py.sub (Py.Float
                               (Py.Z2F (Z.of_nat (size (job_all_skills job_requirements
                                                         ∖ cv_all_skills cv_skills)))
                                / Py.Z2F (Z.of_nat (size (job_all_skills job_requirements)))
                                * 100))
                            (Py.Int 20)))
             else Py.Int 0)).
  { rewrite Hscore.
    destruct (Z.of_nat (size (job_all_skills job_requirements)) >? 0) eqn:Hgt.
    - assert (Hlt : (0 <? Z.of_nat (size (job_all_skills job_requirements))) = true) by lia.
      rewrite Hlt. reflexivity.
    - assert (Hlt : (0 <? Z.of_nat (size (job_all_skills job_requirements))) = false) by lia.
      rewrite Hlt. reflexivity. }
  split; [exact Hformula|]. split.
  - intros Hmissing Hbound. rewrite Hformula, Hmissing.
    destruct (0 <? Z.of_nat (size (job_all_skills job_requirements))) eqn:Hpos; [|reflexivity].
    change (Py.Z2F 0) with 0%float.
    rewrite zero_div_Z2F by lia.
    vm_compute. reflexivity.
  - intros Hbound Hfifth.
    assert (Hle : (size (job_all_skills job_requirements ∖ cv_all_skills cv_skills)
                   <= size (job_all_skills job_requirements))%nat)
      by (apply subseteq_size; intros x Hx; apply elem_of_difference in Hx; tauto).
    rewrite Hformula.
    set (required := Z.of_nat (size (job_all_skills job_requirements))) in *.
    set (missing := Z.of_nat (size (job_all_skills job_requirements
                                    ∖ cv_all_skills cv_skills))) in *.
    assert (Hm : 0 <= missing <= required) by lia.
    assert (Hr : 1 <= required <= 200) by lia.
    clearbody required missing.
    replace (0 <? required) with true by lia.
    pose proof reduced_gap_positive_on_grid as Hgrid.
    rewrite forallb_forall in Hgrid. specialize (Hgrid required (in_range 1 200 required Hr)).
    rewrite forallb_forall in Hgrid. specialize (Hgrid missing (in_range 0 required missing Hm)).
    replace (required <? 5 * missing) with true in Hgrid by lia.
    exact Hgrid.
Qed.

(** The specification's scenario: a senior profile with Django against a
    requirement that only states the junior level. *)
Lemma senior_for_junior_assessment_witness :
  let cv_skills := Sample.cv "senior" [("frameworks", ["Django"])] in
  let job_requirements := Sample.job_level_only "junior" in
  let g := _calculate_skill_gaps cv_skills job_requirements in
  experience_gap g = Some "senior_applying_for_junior"
  /\ gap_score g = Py.Int 0
  /\ overqualification_risk g = Some "high"
  /\ hiring_recommendation
       (_generate_overall_assessment cv_skills job_requirements g
          (_perform_llm_analysis "" ""))
     = "consider_with_caution".
Proof.
  cbv zeta.
  pose proof (senior_for_junior_assessment
                (Sample.cv "senior" [("frameworks", ["Django"])])
                (Sample.job_level_only "junior")
                (_perform_llm_analysis "" "") (Py.Int 0)) as H.
  cbv zeta in H.
  assert (Hgap : experience_gap
                   (_calculate_skill_gaps (Sample.cv "senior" [("frameworks", ["Django"])])
                                          (Sample.job_level_only "junior"))
                 = Some "senior_applying_for_junior") by (vm_compute; reflexivity).
  destruct (H Hgap) as (Hrisk & _ & Hrec & _ & Hzero).
  split; [exact Hgap|]. split; [|split; [exact Hrisk | exact Hrec]].
  apply Hzero; vm_compute; reflexivity.
Defined.

(** C5 as stated fails: a senior without the two required skills applying
    for a junior job is classified senior_applying_for_junior, and the gap
    score is 100 - 20 = 80, not 0. *)
Lemma senior_for_junior_counterexample :
  let g := _calculate_skill_gaps
             (Sample.cv "senior" [])
             (Sample.job "junior" [("programming_languages", ["python"; "java"])]) in
  experience_gap g = Some "senior_applying_for_junior"
  /\ gap_score g = Py.Float 80
  /\ Py.eqb (gap_score g) (Py.Int 0) = false.
Proof. vm_compute. repeat split. Qed.

End GapClaims.

(** ** Experience-level extraction *)

Section Extraction.

Import CVAnalyzer.

(** C6, as the code has it: the CV skill extractor checks its rules in the
    order junior, senior, mid-level; the job requirement extractor checks
    its own rules in the order senior, junior, mid-level; in both the first
    rule with a keyword in the lower-cased text wins and the level is
    unknown when none matches. *)
Theorem experience_level_rule_order (text : string) :
  experience_level (_fallback_skill_extraction text) =
    Some (Spec.first_match
            [ (["junior"; "entry"; "graduate"; "intern"], "junior");
              (["senior"; "lead"; "architect"; "principal"], "senior");
              (["mid"; "intermediate"; "3"; "4"; "5"], "mid-level") ]
            (Str.lower text))
  /\ job_exp_level (_fallback_requirement_extraction text) =
       Spec.first_match
         [ (["senior"; "lead"; "architect"; "principal";
             "5+"; "6+"; "7+"; "8+"; "9+"; "10+"], "senior");
           (["junior"; "entry"; "graduate"; "intern"; "1-3"; "0-2"], "junior");
           (["mid"; "intermediate"; "3-5"; "4-6"], "mid-level") ]
         (Str.lower text).
Proof.
  split.
  - unfold _fallback_skill_extraction, cv_experience, Spec.first_match.
    cbn [experience_level].
    repeat (destruct (Str.any_in _ (Str.lower text)); [reflexivity|]).
    reflexivity.
  - unfold job_exp_level, _fallback_requirement_extraction, job_experience, Spec.first_match.
    cbn [experience_requirements required_experience_level get].
    repeat (destruct (Str.any_in _ (Str.lower text)); [reflexivity|]).
    reflexivity.
Qed.

(** C6 as stated fails for the job requirement extractor: a text with both a
    senior and a junior keyword is a senior requirement, where the order
    junior, senior, mid-level gives junior (as the CV extractor does). *)
Lemma experience_level_rule_order_counterexample :
  let text := "Senior engineer who mentors junior developers" in
  job_exp_level (_fallback_requirement_extraction text) = "senior"
  /\ Spec.first_match
       [ (["junior"; "entry"; "graduate"; "intern"; "1-3"; "0-2"], "junior");
         (["senior"; "lead"; "architect"; "principal";
           "5+"; "6+"; "7+"; "8+"; "9+"; "10+"], "senior");
         (["mid"; "intermediate"; "3-5"; "4-6"], "mid-level") ]
       (Str.lower text) = "junior"
  /\ experience_level (_fallback_skill_extraction text) = Some "junior".
Proof. vm_compute. repeat split. Qed.

End Extraction.

(** ** Strings *)

Section StringFacts.

Lemma prefix_lower (a b : string) :
  String.prefix a b = true -> String.prefix (Str.lower a) (Str.lower b) = true.
Proof.
  revert b. induction a as [|c a IH]; intros b H.
  - destruct b; reflexivity.
  - destruct b as [|d b]; [discriminate|].
    simpl in *. destruct (Ascii.ascii_dec c d) as [->|]; [|discriminate].
    destruct (Ascii.ascii_dec (Str.lower_char d) (Str.lower_char d)); [|contradiction].
    apply IH, H.
Qed.

(** A text that contains a word contains its lower-case form once
    lowered. *)
Lemma contains_lower (needle hay : string) :
  Str.contains needle hay = true ->
  Str.contains (Str.lower needle) (Str.lower hay) = true.
Proof.
  induction hay as [|c hay IH]; intros H.
  - cbn [Str.contains] in *. apply (prefix_lower needle ""), H.
  - cbn [Str.contains Str.lower] in *.
    apply orb_true_iff in H. apply orb_true_iff.
    destruct H as [H|H]; [left | right; apply IH, H].
    apply (prefix_lower needle (String c hay)), H.
Qed.

End StringFacts.

(** ** Scoring one response *)

Section ResponseScoring.

Import InterviewScorer.

Lemma length_score_range (n : Z) : 3 <= length_score n <= 8.
Proof.
  unfold length_score.
  destruct (n <? 50); [lia|]. destruct (n <? 150); [lia|]. destruct (n <? 300); lia.
Qed.

Lemma keyword_matches_range (response_lower : string) :
  0 <= keyword_matches response_lower <= 5.
Proof.
  unfold keyword_matches, technical_keywords. cbn [List.filter].
  repeat (destruct (Str.contains _ response_lower)); cbn [length]; lia.
Qed.

Lemma fallback_overall_score (question response : string) (criteria : list string) :
  overall_score (_fallback_scoring question response criteria) =
    (if is_technical (Str.lower question) then
       Z.min 10 (length_score (Str.len response) + keyword_matches (Str.lower response))
     else length_score (Str.len response)).
Proof. reflexivity. Qed.

(** C7, for a question and a response of ASCII characters, which the model
    holds character by character, so that [Str.len] is the number of
    characters: the base score is 3, 5, 7 or 8 by the length of the response
    (under 50, under 150, under 300 characters, else); a question that contains
    "technical" or "programming" (in any case) adds one point per keyword of
    python, java, database, api, algorithm found in the lower-cased response,
    up to 10; the recommendation is consider from 6 on and reject below; so a
    400-character response with "python" and "api" to a question with
    "technical" scores 10, consider. *)
Theorem fallback_scoring_rules (question response : string) (criteria : list string) :
  let result := _fallback_scoring question response criteria in
  let n := Str.len response in
  let base := if n <? 50 then 3 else if n <? 150 then 5 else if n <? 300 then 7 else 8 in
  let matches :=
    Z.of_nat (length (List.filter (fun keyword => Str.contains keyword (Str.lower response))
                                  ["python"; "java"; "database"; "api"; "algorithm"])) in
  Str.is_ascii question = true ->
  Str.is_ascii response = true ->
  overall_score result =
    (if Str.contains "technical" (Str.lower question)
        || Str.contains "programming" (Str.lower question)
     then Z.min 10 (base + matches) else base)
  /\ (Str.contains "technical" question = true \/ Str.contains "programming" question = true ->
      overall_score result = Z.min 10 (base + matches))
  /\ recommendation result = (if 6 <=? overall_score result then "consider" else "reject")
  /\ (n = 400 ->
      Str.contains "technical" question = true ->
      Str.contains "python" response = true ->
      Str.contains "api" response = true ->
      overall_score result = 10 /\ recommendation result = "consider").
Proof.
  cbv zeta. intros _ _. rewrite fallback_overall_score.
  split; [reflexivity|]. split; [|split; [reflexivity|]].
  - intros Hq. unfold is_technical.
    destruct Hq as [Hq|Hq]; apply contains_lower in Hq; cbn [Str.lower] in Hq;
      change (Str.contains "technical" (Str.lower question) = true) in Hq
      || change (Str.contains "programming" (Str.lower question) = true) in Hq;
      rewrite Hq, ?orb_true_r; reflexivity.
  - intros Hlen Hq Hpy Hapi.
    apply contains_lower in Hq, Hpy, Hapi.
    change (Str.contains "technical" (Str.lower question) = true) in Hq.
    change (Str.contains "python" (Str.lower response) = true) in Hpy.
    change (Str.contains "api" (Str.lower response) = true) in Hapi.
    assert (Hscore : overall_score (_fallback_scoring question response criteria) = 10).
    { rewrite fallback_overall_score. unfold is_technical. rewrite Hq. cbn [orb].
      rewrite Hlen. unfold keyword_matches, technical_keywords. cbn [List.filter].
      rewrite Hpy, Hapi.
      destruct (Str.contains "java" _), (Str.contains "database" _),
        (Str.contains "algorithm" _); reflexivity. }
    split; [exact Hscore|].
    change (recommendation (_fallback_scoring question response criteria))
      with (if 6 <=? overall_score (_fallback_scoring question response criteria)
            then "consider" else "reject").
    rewrite Hscore. reflexivity.
Qed.

(** A 400-character answer that names python and an api, to a technical
    question. *)
Lemma fallback_scoring_rules_witness :
  let question := "A technical question: how do you test your code?" in
  let response := Sample.repeat_string 19 "I use python and an " ++ "I also call the api." in
  Str.is_ascii question = true
  /\ Str.is_ascii response = true
  /\ Str.len response = 400
  /\ overall_score (_fallback_scoring question response []) = 10
  /\ recommendation (_fallback_scoring question response []) = "consider".
Proof.
  cbv zeta. do 3 (split; [vm_compute; reflexivity|]).
  apply (proj2 (proj2 (proj2 (fallback_scoring_rules
                                "A technical question: how do you test your code?"
                                (Sample.repeat_string 19 "I use python and an "
                                 ++ "I also call the api.")
                                [] eq_refl eq_refl)))); vm_compute; reflexivity.
Defined.

(** C10: the overall score of a response is an integer from 3 to 10, so 1
    and 2 are never given; the empty response scores 3. *)
Theorem fallback_score_range (question response : string) (criteria : list string) :
  3 <= overall_score (_fallback_scoring question response criteria) <= 10
  /\ overall_score (_fallback_scoring question "" criteria) = 3.
Proof.
  split.
  - rewrite fallback_overall_score.
    pose proof (length_score_range (Str.len response)).
    pose proof (keyword_matches_range (Str.lower response)).
    destruct (is_technical (Str.lower question)); lia.
  - rewrite fallback_overall_score.
    destruct (is_technical (Str.lower question)); reflexivity.
Qed.

End ResponseScoring.

(** ** Aggregating several responses *)

Section Aggregation.

Import InterviewScorer.

(** C8, as the code has it: the consistency score is
    [max(0, 100 - variance(scores) * 10)] rounded to two decimals, and 100
    with fewer than two scores; the scores 9, 9, 9 give 100 and the scores
    2, 9, 10 give a value below 100 and not below 0. *)
Theorem consistency_score_formula (individual_scores : list score_result) :
  let scores := map overall_score individual_scores in
  _calculate_consistency_score individual_scores = Py.round2 (Spec.consistency scores)
  /\ (Z.of_nat (length scores) < 2 ->
      _calculate_consistency_score individual_scores = Py.Float 100)
  /\ Py.eqb (_calculate_consistency_score (map Sample.scored_as [9; 9; 9])) (Py.Float 100) = true
  /\ Py.ltb (_calculate_consistency_score (map Sample.scored_as [2; 9; 10])) (Py.Float 100) = true
  /\ Py.leb (Py.Int 0) (_calculate_consistency_score (map Sample.scored_as [2; 9; 10])) = true.
Proof.
  cbv zeta. unfold _calculate_consistency_score, Spec.consistency.
  split; [|split].
  - destruct (Z.of_nat (length (map overall_score individual_scores)) <? 2);
      [vm_compute|]; reflexivity.
  - intros Hlen. apply Z.ltb_lt in Hlen. rewrite Hlen. reflexivity.
  - vm_compute. repeat split.
Qed.

(** A single score: no variance is defined, the consistency is 100. *)
Lemma consistency_score_formula_witness :
  _calculate_consistency_score [Sample.scored_as 7] = Py.Float 100.
Proof.
  apply (proj1 (proj2 (consistency_score_formula [Sample.scored_as 7]))).
  vm_compute. reflexivity.
Defined.

(** C8 as stated fails: for the scores 3, 5, 5 the variance is 4/3, the
    stated formula gives 86.66666666666667 and the code returns 86.67. *)
Lemma consistency_score_counterexample :
  _calculate_consistency_score (map Sample.scored_as [3; 5; 5]) = Py.Float 86.67
  /\ Spec.consistency [3; 5; 5] = Py.Float 86.66666666666667
  /\ Py.eqb (_calculate_consistency_score (map Sample.scored_as [3; 5; 5]))
            (Spec.consistency [3; 5; 5]) = false.
Proof. vm_compute. repeat split. Qed.

(** C2 at a failing input: of two pairs the second has an empty response
    and is skipped; the remaining score 3 is divided by 2, the number of
    pairs given, so the overall score is 1.5 where the mean of the scored
    pairs is 3. *)
Lemma aggregation_divides_by_all_pairs :
  let questions_responses :=
    [ Sample.pair "Tell me about yourself." "I write code.";
      Sample.pair "Why this role?" "" ] in
  option_map (fun r => (map overall_score (individual_scores r),
                        assessed_overall_score (overall_assessment r),
                        total_questions (overall_assessment r)))
             (score_multiple_responses "" questions_responses)
    = Some ([3], Py.Float 1.5, Some 2)
  /\ Spec.mean_score [3] = Py.Float 3.
Proof. vm_compute. split; reflexivity. Qed.

End Aggregation.

(** ** The final recommendation *)

Section FinalRecommendation.

Import ReportGenerator.

(** C1: for a CV score in [0, 100] and an interview score in [0, 10] the
    combiner computes [cv * 0.4 + interview * 10 * 0.6] and returns
    strong_hire from 85, hire from 70, consider from 50 and reject below; the
    scores 90 and 8 give 84 and hire. *)
Theorem final_recommendation_thresholds (cv_score interview_score : Py.num) :
  Py.leb (Py.Int 0) cv_score = true ->
  Py.leb cv_score (Py.Int 100) = true ->
  Py.leb (Py.Int 0) interview_score = true ->
  Py.leb interview_score (Py.Int 10) = true ->
  let w :=
    (Py.to_float cv_score * 0.4
     + Py.to_float (Py.mul interview_score (Py.Int 10)) * 0.6)%float in
  weighted cv_score interview_score = Py.Float w
  /\ _generate_final_recommendation (with_score cv_score) (with_score interview_score) =
       (if (85 <=? w)%float then "strong_hire"
        else if (70 <=? w)%float then "hire"
        else if (50 <=? w)%float then "consider"
        else "reject")
  /\ weighted (Py.Int 90) (Py.Int 8) = Py.Float 84
  /\ _generate_final_recommendation (with_score (Py.Int 90)) (with_score (Py.Int 8)) = "hire".
Proof.
  intros _ _ _ _. cbv zeta.
  assert (Hw : weighted cv_score interview_score =
               Py.Float (Py.to_float cv_score * 0.4
                         + Py.to_float (Py.mul interview_score (Py.Int 10)) * 0.6)).
  { destruct cv_score, interview_score; reflexivity. }
  split; [exact Hw|]. split.
  - unfold _generate_final_recommendation. cbn [score_of with_score overall_assessment
                                                 overall_score CVAnalyzer.get].
    rewrite Hw. reflexivity.
  - vm_compute. split; reflexivity.
Qed.

(** The scenario with the scores given as floats. *)
Lemma final_recommendation_thresholds_witness :
  weighted (Py.Float 90) (Py.Float 8) = Py.Float 84
  /\ _generate_final_recommendation (with_score (Py.Float 90)) (with_score (Py.Float 8))
     = "hire".
Proof.
  destruct (final_recommendation_thresholds (Py.Float 90) (Py.Float 8)) as (Hw & Hr & _);
    try (vm_compute; reflexivity).
  split; [rewrite Hw | rewrite Hr]; vm_compute; reflexivity.
Defined.

End FinalRecommendation.

(** ** The analysis entry point *)

Section EntryPoint.

Import FileUtils CVAnalyzer.

(** A missing file reads as the empty string. *)
Lemma read_file_missing (w : world) (file_path : string) :
  path_exists w file_path = Returns false -> read_file w file_path = Returns "".
Proof. intros H. unfold read_file. rewrite H. reflexivity. Qed.

(** A file that no reader can open or parse reads as the empty string. *)
Lemma read_file_unreadable (w : world) (file_path : string) (found : bool) :
  path_exists w file_path = Returns found ->
  open_read w file_path = None ->
  pdf_pages w file_path = None ->
  docx_paragraphs w file_path = None ->
  read_file w file_path = Returns "".
Proof.
  intros He Ht Hp Hd. unfold read_file, read_text_file, read_pdf_file, read_word_file.
  rewrite He, Ht, Hp, Hd.
  destruct (negb _); [reflexivity|].
  destruct (_ =? ".txt")%string; [reflexivity|].
  destruct (_ =? ".pdf")%string; [reflexivity|].
  destruct (existsb _ _); reflexivity.
Qed.

(** The reader raises exactly what the existence test raises. *)
Lemma read_file_raises (w : world) (file_path message : string) :
  read_file w file_path = Raises message <-> path_exists w file_path = Raises message.
Proof.
  unfold read_file. destruct (path_exists w file_path) as [found|e].
  - split; [|discriminate].
    destruct (negb found); [discriminate|].
    destruct (_ =? ".txt")%string; [discriminate|].
    destruct (_ =? ".pdf")%string; [discriminate|].
    destruct (existsb _ _); discriminate.
  - split; intros H; injection H as ->; reflexivity.
Qed.

(** C9, as the code has it: when the existence test answers, a missing file
    and a file the readers cannot open or parse read as the empty string
    instead of raising, and the reader raises only what the existence test
    raises; when both reads return and either text is empty, the entry point
    returns the error record "Failed to read input files"; when a read
    raises, it returns the error record with the message of the exception;
    in each of these cases there is no assessment. *)
Theorem analysis_fails_on_empty_input (w : world) (cv_file_path job_description_path : string) :
  (forall file_path,
     path_exists w file_path = Returns false -> read_file w file_path = Returns "")
  /\ (forall file_path found,
        path_exists w file_path = Returns found ->
        open_read w file_path = None ->
        pdf_pages w file_path = None ->
        docx_paragraphs w file_path = None ->
        read_file w file_path = Returns "")
  /\ (forall file_path message,
        read_file w file_path = Raises message <-> path_exists w file_path = Raises message)
  /\ (forall cv_text job_description,
        read_file w cv_file_path = Returns cv_text ->
        read_file w job_description_path = Returns job_description ->
        cv_text = "" \/ job_description = "" ->
        analyze_cv_against_job w cv_file_path job_description_path =
          Error "Failed to read input files")
  /\ (forall message,
        read_file w cv_file_path = Raises message ->
        analyze_cv_against_job w cv_file_path job_description_path = Error message)
  /\ (forall cv_text message,
        read_file w cv_file_path = Returns cv_text ->
        read_file w job_description_path = Raises message ->
        analyze_cv_against_job w cv_file_path job_description_path = Error message).
Proof.
  split; [apply read_file_missing|]. split; [apply read_file_unreadable|].
  split; [apply read_file_raises|].
  unfold analyze_cv_against_job. split; [|split].
  - intros cv_text job_description -> -> [->| ->]; cbn [Str.is_empty orb]; [reflexivity|].
    rewrite orb_true_r. reflexivity.
  - intros message ->. reflexivity.
  - intros cv_text message -> ->. reflexivity.
Qed.

(** Neither file exists. *)
Lemma analysis_fails_on_empty_input_witness :
  read_file Sample.empty_world "cv.pdf" = Returns ""
  /\ analyze_cv_against_job Sample.empty_world "cv.pdf" "job.txt" =
       Error "Failed to read input files".
Proof.
  split; [reflexivity|].
  destruct (analysis_fails_on_empty_input Sample.empty_world "cv.pdf" "job.txt")
    as (_ & _ & _ & H & _).
  apply (H "" ""); [reflexivity | reflexivity | left; reflexivity].
Defined.

(** C9 as stated fails: the CV is missing and reads as the empty text, but
    the existence test of the job description's path raises, so the entry
    point returns the message of that exception and not
    "Failed to read input files". *)
Lemma analysis_fails_on_empty_input_counterexample :
  read_file Sample.unsearchable_job "cv.txt" = Returns ""
  /\ read_file Sample.unsearchable_job "/root/job.txt"
     = Raises "[Errno 13] Permission denied: '/root/job.txt'"
  /\ analyze_cv_against_job Sample.unsearchable_job "cv.txt" "/root/job.txt"
     = Error "[Errno 13] Permission denied: '/root/job.txt'"
  /\ ("[Errno 13] Permission denied: '/root/job.txt'" =? "Failed to read input files")%string
     = false.
Proof. vm_compute. repeat split. Qed.

End EntryPoint.

(** ** Further properties of the rule engine *)

Section FurtherProperties.

Import CVAnalyzer.

Lemma elem_of_fold_all_skills (technical : list (string * list string)) (acc : gset string)
    (s : string) :
  s ∈ fold_left (fun acc entry => acc ∪ list_to_set (map Str.lower (snd entry))) technical acc
  <-> s ∈ acc \/ exists entry original,
                   entry ∈ technical /\ original ∈ snd entry /\ s = Str.lower original.
Proof.
  revert acc. induction technical as [|entry technical IH]; intros acc; cbn [fold_left].
  - split; [auto|]. intros [H|(entry & original & H & _)]; [exact H|].
    apply elem_of_nil in H. contradiction.
  - rewrite IH, elem_of_union, elem_of_list_to_set, list_elem_of_fmap. split.
    + intros [[H|(original & -> & H)]|(e & original & He & Ho & ->)].
      * left. exact H.
      * right. exists entry, original. repeat split; [left | exact H].
      * right. exists e, original. repeat split; [right; exact He | exact Ho].
    + intros [H|(e & original & He & Ho & ->)]; [left; left; exact H|].
      apply elem_of_cons in He. destruct He as [->|He].
      * left. right. exists original. split; [reflexivity | exact Ho].
      * right. exists e, original. repeat split; assumption.
Qed.

(** X1: the missing technical skills are exactly the required skills that
    the candidate does not have, both taken over all categories and compared in
    lower case. *)
Theorem missing_skills_are_set_difference (cv_skills : skills) (job_requirements : requirements)
    (s : string) :
  (s ∈ missing_technical_skills (_calculate_skill_gaps cv_skills job_requirements)
   <-> s ∈ job_all_skills job_requirements /\ s ∉ cv_all_skills cv_skills)
  /\ (forall technical,
        s ∈ all_skills technical
        <-> exists entry original,
              entry ∈ technical /\ original ∈ snd entry /\ s = Str.lower original).
Proof.
  split.
  - destruct (skill_gaps_score cv_skills job_requirements) as (_ & _ & Hmissing & _).
    rewrite Hmissing. apply elem_of_difference.
  - intros technical. unfold all_skills. rewrite elem_of_fold_all_skills.
    split; [intros [H|H]; [apply elem_of_empty in H; contradiction | exact H] | auto].
Qed.

End FurtherProperties.

(** ** The order of binary64 numbers *)

Section FloatOrder.

Ltac compare_cases :=
  repeat match goal with
    | H : context [Z.compare ?a ?b] |- _ => destruct (Z.compare_spec a b)
    | |- context [Z.compare ?a ?b] => destruct (Z.compare_spec a b)
    | H : context [Pos.compare_cont Eq ?a ?b] |- _ =>
        change (Pos.compare_cont Eq a b) with (Pos.compare a b) in H
    | |- context [Pos.compare_cont Eq ?a ?b] =>
        change (Pos.compare_cont Eq a b) with (Pos.compare a b)
    | H : context [Pos.compare ?a ?b] |- _ => destruct (Pos.compare_spec a b)
    | |- context [Pos.compare ?a ?b] => destruct (Pos.compare_spec a b)
    end.

Ltac order_cases a b c :=
  destruct a as [[]|[]| |[] ?ma ?ea], b as [[]|[]| |[] ?mb ?eb], c as [[]|[]| |[] ?mc ?ec];
  try reflexivity; try discriminate;
  intros ? ?; compare_cases; simpl in *; subst;
  try reflexivity; try discriminate; try lia.

Lemma SFleb_trans (a b c : spec_float) :
  SFleb a b = true -> SFleb b c = true -> SFleb a c = true.
Proof. unfold SFleb, SFcompare. order_cases a b c. Qed.

Lemma SFltb_leb_trans (a b c : spec_float) :
  SFltb a b = true -> SFleb b c = true -> SFltb a c = true.
Proof. unfold SFltb, SFleb, SFcompare. order_cases a b c. Qed.

Lemma SFleb_ltb_trans (a b c : spec_float) :
  SFleb a b = true -> SFltb b c = true -> SFltb a c = true.
Proof. unfold SFltb, SFleb, SFcompare. order_cases a b c. Qed.

Lemma float_leb_trans (x y z : float) :
  PrimFloat.leb x y = true -> PrimFloat.leb y z = true -> PrimFloat.leb x z = true.
Proof. rewrite !FloatAxioms.leb_spec. apply SFleb_trans. Qed.

Lemma float_ltb_leb_trans (x y z : float) :
  PrimFloat.ltb x y = true -> PrimFloat.leb y z = true -> PrimFloat.ltb x z = true.
Proof. rewrite !FloatAxioms.ltb_spec, FloatAxioms.leb_spec. apply SFltb_leb_trans. Qed.

Lemma float_leb_ltb_trans (x y z : float) :
  PrimFloat.leb x y = true -> PrimFloat.ltb y z = true -> PrimFloat.ltb x z = true.
Proof. rewrite !FloatAxioms.ltb_spec, FloatAxioms.leb_spec. apply SFleb_ltb_trans. Qed.

(** A number at least a threshold is at least every lower threshold. *)
Lemma geb_int_weaken (x : Py.num) (a b : Z) :
  b <= a -> PrimFloat.leb (Py.Z2F b) (Py.Z2F a) = true ->
  Py.geb x (Py.Int a) = true -> Py.geb x (Py.Int b) = true.
Proof.
  intros Hz Hf. unfold Py.geb. destruct x as [z|f]; cbn [Py.leb Py.to_float].
  - intros H. apply Z.leb_le in H. apply Z.leb_le. lia.
  - intros H. exact (float_leb_trans _ _ _ Hf H).
Qed.

(** A number below a threshold is below every higher threshold. *)
Lemma ltb_int_weaken (x : Py.num) (a b : Z) :
  a <= b -> PrimFloat.leb (Py.Z2F a) (Py.Z2F b) = true ->
  Py.ltb x (Py.Int a) = true -> Py.ltb x (Py.Int b) = true.
Proof.
  intros Hz Hf. destruct x as [z|f]; cbn [Py.ltb Py.to_float].
  - intros H. apply Z.ltb_lt in H. apply Z.ltb_lt. lia.
  - intros H. exact (float_ltb_leb_trans _ _ _ H Hf).
Qed.

Lemma gtb_int_weaken (x : Py.num) (a b : Z) :
  b <= a -> PrimFloat.leb (Py.Z2F b) (Py.Z2F a) = true ->
  Py.gtb x (Py.Int a) = true -> Py.gtb x (Py.Int b) = true.
Proof.
  intros Hz Hf. unfold Py.gtb. destruct x as [z|f]; cbn [Py.ltb Py.to_float].
  - intros H. apply Z.ltb_lt in H. apply Z.ltb_lt. lia.
  - intros H. exact (float_leb_ltb_trans _ _ _ Hf H).
Qed.

End FloatOrder.

(** ** More on scoring one response *)

Section ResponseScoringMore.

Import InterviewScorer.

Lemma lower_app (a b : string) : Str.lower (a ++ b) = Str.lower a ++ Str.lower b.
Proof.
  induction a as [|c a IH]; [reflexivity|].
  change (String c a ++ b) with (String c (a ++ b)). cbn [Str.lower].
  rewrite IH. reflexivity.
Qed.

Lemma prefix_app (k a b : string) :
  String.prefix k a = true -> String.prefix k (a ++ b) = true.
Proof.
  revert a. induction k as [|c k IH]; intros a H.
  - destruct (a ++ b); reflexivity.
  - destruct a as [|d a]; [destruct k; discriminate|].
    change (String d a ++ b) with (String d (a ++ b)).
    cbn [String.prefix] in *. destruct (Ascii.ascii_dec c d); [apply IH, H | discriminate].
Qed.

Lemma contains_app (k a b : string) :
  Str.contains k a = true -> Str.contains k (a ++ b) = true.
Proof.
  induction a as [|c a IH]; intros H.
  - cbn in H. destruct k; [|discriminate]. destruct b; reflexivity.
  - cbn [Str.contains] in H. change (String c a ++ b) with (String c (a ++ b)).
    cbn [Str.contains]. apply orb_true_iff in H. apply orb_true_iff.
    destruct H as [H|H]; [left | right; apply IH, H].
    exact (prefix_app k (String c a) b H).
Qed.

Lemma len_app (a b : string) : Str.len (a ++ b) = Str.len a + Str.len b.
Proof.
  unfold Str.len. induction a as [|c a IH].
  - change ("" ++ b) with b. cbn [String.length]. lia.
  - change (String c a ++ b) with (String c (a ++ b)). cbn [String.length]. lia.
Qed.

Lemma len_nonneg (a : string) : 0 <= Str.len a.
Proof. unfold Str.len. lia. Qed.

Lemma length_score_mono (n m : Z) : n <= m -> length_score n <= length_score m.
Proof.
  intros H. unfold length_score.
  destruct (n <? 50) eqn:?, (n <? 150) eqn:?, (n <? 300) eqn:?,
           (m <? 50) eqn:?, (m <? 150) eqn:?, (m <? 300) eqn:?; lia.
Qed.

Lemma filter_length_mono {A : Type} (f g : A -> bool) (l : list A) :
  (forall x, f x = true -> g x = true) ->
  (length (List.filter f l) <= length (List.filter g l))%nat.
Proof.
  intros H. induction l as [|x l IH]; [reflexivity|]. cbn.
  destruct (f x) eqn:Hf.
  - rewrite (H x Hf). cbn. lia.
  - destruct (g x); cbn; lia.
Qed.

Lemma keyword_matches_app (a b : string) :
  keyword_matches (Str.lower a) <= keyword_matches (Str.lower (a ++ b)).
Proof.
  unfold keyword_matches. apply inj_le, filter_length_mono.
  intros k H. cbv beta in *. rewrite lower_app. apply contains_app, H.
Qed.

(** X2: text added at the end of a response never lowers its score, and
    never turns a consider into a reject. *)
Theorem padding_never_lowers_score (question response extra : string)
    (criteria : list string) :
  overall_score (_fallback_scoring question response criteria)
    <= overall_score (_fallback_scoring question (response ++ extra) criteria)
  /\ (recommendation (_fallback_scoring question response criteria) = "consider" ->
      recommendation (_fallback_scoring question (response ++ extra) criteria) = "consider").
Proof.
  assert (Hle : overall_score (_fallback_scoring question response criteria)
                <= overall_score (_fallback_scoring question (response ++ extra) criteria)).
  { rewrite !fallback_overall_score.
    pose proof (length_score_mono (Str.len response) (Str.len (response ++ extra))) as Hl.
    rewrite len_app in Hl. pose proof (len_nonneg extra).
    pose proof (keyword_matches_app response extra).
    rewrite len_app. destruct (is_technical (Str.lower question)); lia. }
  split; [exact Hle|].
  change (recommendation (_fallback_scoring question response criteria))
    with (if 6 <=? overall_score (_fallback_scoring question response criteria)
          then "consider" else "reject").
  change (recommendation (_fallback_scoring question (response ++ extra) criteria))
    with (if 6 <=? overall_score (_fallback_scoring question (response ++ extra) criteria)
          then "consider" else "reject").
  destruct (6 <=? overall_score (_fallback_scoring question response criteria)) eqn:H6;
    [|discriminate].
  intros _. apply Z.leb_le in H6.
  assert (H6' : (6 <=? overall_score (_fallback_scoring question (response ++ extra) criteria))
                = true) by (apply Z.leb_le; lia).
  rewrite H6'. reflexivity.
Qed.

(** An answer of 150 characters is a consider and stays one when text is
    added. *)
Lemma padding_never_lowers_score_witness :
  recommendation (_fallback_scoring "Why us?" (Sample.repeat_string 15 "I like it.") [])
    = "consider"
  /\ recommendation (_fallback_scoring "Why us?"
                       (Sample.repeat_string 15 "I like it." ++ "More.") []) = "consider".
Proof.
  assert (H : recommendation (_fallback_scoring "Why us?"
                                (Sample.repeat_string 15 "I like it.") [])
              = "consider") by (vm_compute; reflexivity).
  split; [exact H|].
  exact (proj2 (padding_never_lowers_score "Why us?"
                  (Sample.repeat_string 15 "I like it.") "More." []) H).
Defined.

(** X3, for a question and responses of ASCII characters, which the model
    holds character by character: when the question mentions neither
    "technical" nor "programming", the score depends on the length of the
    response alone, and the response is considered exactly when it has at
    least 150 characters. *)
Theorem plain_question_scored_by_length (question response : string)
    (criteria : list string) :
  Str.is_ascii question = true ->
  Str.is_ascii response = true ->
  Str.contains "technical" (Str.lower question) = false ->
  Str.contains "programming" (Str.lower question) = false ->
  (recommendation (_fallback_scoring question response criteria) = "consider"
   <-> 150 <= Str.len response)
  /\ (recommendation (_fallback_scoring question response criteria) = "reject"
      <-> Str.len response < 150)
  /\ (forall other,
        Str.is_ascii other = true ->
        Str.len other = Str.len response ->
        overall_score (_fallback_scoring question other criteria)
        = overall_score (_fallback_scoring question response criteria)).
Proof.
  intros _ _ Ht Hp.
  assert (Hs : forall r, overall_score (_fallback_scoring question r criteria)
                         = length_score (Str.len r)).
  { intros r. rewrite fallback_overall_score. unfold is_technical. rewrite Ht, Hp.
    reflexivity. }
  change (recommendation (_fallback_scoring question response criteria))
    with (if 6 <=? overall_score (_fallback_scoring question response criteria)
          then "consider" else "reject").
  rewrite Hs. unfold length_score.
  split; [|split].
  - destruct (Str.len response <? 50) eqn:?, (Str.len response <? 150) eqn:?,
      (Str.len response <? 300) eqn:?; cbn; split; intros H;
      try reflexivity; try discriminate; lia.
  - destruct (Str.len response <? 50) eqn:?, (Str.len response <? 150) eqn:?,
      (Str.len response <? 300) eqn:?; cbn; split; intros H;
      try reflexivity; try discriminate; lia.
  - intros other _ Hlen. rewrite Hs, Hlen. reflexivity.
Qed.

(** A behavioural question: 149 characters are rejected, keywords or not. *)
Lemma plain_question_scored_by_length_witness :
  Str.is_ascii "Tell me about a project." = true
  /\ Str.is_ascii (Sample.repeat_string 149 "x") = true
  /\ recommendation (_fallback_scoring "Tell me about a project."
                       (Sample.repeat_string 149 "x") []) = "reject".
Proof.
  do 2 (split; [vm_compute; reflexivity|]).
  apply (proj1 (proj2 (plain_question_scored_by_length
                         "Tell me about a project." (Sample.repeat_string 149 "x") []
                         eq_refl eq_refl eq_refl eq_refl))).
  vm_compute. reflexivity.
Defined.

End ResponseScoringMore.

(** ** More on aggregating responses *)

Section AggregationMore.

Import InterviewScorer InterviewStatistics Notions.

Lemma answered_not_skipped (qr : question_response) :
  Str.is_empty (CVAnalyzer.get (question qr) "")
  || Str.is_empty (CVAnalyzer.get (response qr) "") = negb (answered qr).
Proof. unfold answered. rewrite negb_andb, !negb_involutive. reflexivity. Qed.

(** What the loop of [score_multiple_responses] adds to its accumulators. *)
Lemma full_loop_fold (now : string) (entries : list (Z * question_response))
    (state : full_state) :
  let final := fold_left (full_loop_body now) entries state in
  let kept := List.filter (fun entry => answered (snd entry)) entries in
  map question_index (scored (responses final)) =
    (map question_index (scored (responses state))
     ++ map (fun entry => Some (fst entry)) kept)%list
  /\ map overall_score (scored (responses final)) =
       (map overall_score (scored (responses state))
        ++ map (fun entry => pair_score (snd entry)) kept)%list
  /\ total_score (responses final) =
       total_score (responses state)
       + fold_right Z.add 0 (map (fun entry => pair_score (snd entry)) kept)
  /\ responses final = fold_left (loop_body now) entries (responses state).
Proof.
  revert state. induction entries as [|entry entries IH]; intros state; cbn zeta.
  - cbn. rewrite !app_nil_r. repeat split. lia.
  - cbn [fold_left List.filter].
    specialize (IH (full_loop_body now state entry)). cbn zeta in IH.
    destruct IH as (Hi & Hs & Ht & Hr).
    rewrite Hi, Hs, Ht, Hr. clear Hi Hs Ht Hr.
    unfold full_loop_body, loop_body.
    rewrite answered_not_skipped.
    destruct (answered (snd entry)); cbn [negb responses scored total_score map fold_right].
    + rewrite !map_app. cbn [map overall_score question_index].
      rewrite <- !app_assoc. cbn [app].
      change (overall_score
                (score_interview_response now
                   (CVAnalyzer.get (question (snd entry)) "")
                   (CVAnalyzer.get (response (snd entry)) "") None))
        with (pair_score (snd entry)).
      repeat split. lia.
    + repeat split.
Qed.

Lemma filter_combine_snd {A B : Type} (p : B -> bool) (indices : list A) (l : list B) :
  length indices = length l ->
  map snd (List.filter (fun entry => p (snd entry)) (combine indices l)) = List.filter p l.
Proof.
  revert indices. induction l as [|x l IH]; intros [|i indices] H; try discriminate;
    [reflexivity|].
  cbn. destruct (p x); cbn; rewrite IH by (cbn in H; lia); reflexivity.
Qed.

Lemma enumerate_answered (qrs : list question_response) :
  map (fun entry => pair_score (snd entry))
      (List.filter (fun entry => answered (snd entry)) (enumerate qrs))
  = map pair_score (List.filter answered qrs).
Proof.
  rewrite <- (filter_combine_snd answered (map Z.of_nat (seq 0 (length qrs))) qrs)
    by (rewrite length_map, length_seq; reflexivity).
  rewrite map_map. reflexivity.
Qed.

Lemma overall_assessment_some (individual_scores : list score_result) (total : Z)
    (num_questions : Z) :
  _calculate_overall_assessment individual_scores (Py.Int total) num_questions =
    Some (if num_questions =? 0 then
            {| assessed_overall_score := Py.Int 0;
               performance_level := "poor";
               total_questions := None;
               consistency_score := None;
               top_strengths := None;
               top_weaknesses := None;
               assessed_recommendation := None |}
          else
            let average_score := Py.Float (Py.Z2F total / Py.Z2F num_questions) in
            {| assessed_overall_score := Py.round2 average_score;
               performance_level :=
                 if Py.geb average_score (Py.Float 8.5) then "excellent"
                 else if Py.geb average_score (Py.Float 7.0) then "good"
                 else if Py.geb average_score (Py.Float 5.5) then "fair"
                 else "poor";
               total_questions := Some num_questions;
               consistency_score := Some (_calculate_consistency_score individual_scores);
               top_strengths :=
                 Some (most_common 3 (counter (concat (map strengths individual_scores))));
               top_weaknesses :=
                 Some (most_common 3 (counter (concat (map weaknesses individual_scores))));
               assessed_recommendation :=
                 Some (_determine_interview_recommendation average_score) |}).
Proof.
  unfold _calculate_overall_assessment.
  destruct (num_questions =? 0) eqn:E; [reflexivity|].
  apply Z.eqb_neq in E. rewrite (truediv_int_some total num_questions E). reflexivity.
Qed.

(** X4, for pairs whose question and response are texts or absent: the
    aggregation does not end in its error record; it scores exactly the pairs
    whose question and response are both non-empty, in their order, each with
    its position in the input as [question_index] and with the score of
    per-response scoring. *)
Theorem scored_responses_are_answered_pairs (now : string)
    (questions_responses : list question_response) :
  exists r,
    InterviewStatistics.score_multiple_responses now questions_responses = Some r
    /\ map question_index (scored_responses r) =
         map (fun entry => Some (fst entry))
             (List.filter (fun entry => answered (snd entry)) (enumerate questions_responses))
    /\ map overall_score (scored_responses r) =
         map pair_score (List.filter answered questions_responses)
    /\ InterviewScorer.score_multiple_responses now questions_responses =
         Some {| individual_scores := scored_responses r; overall_assessment := assessed r |}.
Proof.
  unfold InterviewStatistics.score_multiple_responses, InterviewScorer.score_multiple_responses.
  pose proof (full_loop_fold now (enumerate questions_responses)
                {| responses := {| scored := []; total_score := 0 |};
                   criteria_scores_so_far := initial_criteria_scores |}) as H.
  cbn zeta in H. cbn [responses scored total_score map app] in H.
  destruct H as (Hi & Hs & _ & Hr).
  rewrite <- Hr. rewrite overall_assessment_some. cbn [mbind option_bind].
  eexists. split; [reflexivity|].
  cbn [scored_responses assessed]. rewrite Hi, Hs, enumerate_answered.
  repeat split.
Qed.

(** Of three pairs the middle one has no response: the results carry the
    positions 0 and 2. *)
Lemma scored_responses_are_answered_pairs_witness :
  option_map (fun r => map question_index (scored_responses r))
    (InterviewStatistics.score_multiple_responses ""
       [Sample.pair "a" "b"; Sample.pair "c" ""; Sample.pair "d" "e"])
  = Some [Some 0; Some 2].
Proof.
  destruct (scored_responses_are_answered_pairs ""
              [Sample.pair "a" "b"; Sample.pair "c" ""; Sample.pair "d" "e"])
    as (r & -> & Hi & _).
  cbn [option_map]. rewrite Hi. vm_compute. reflexivity.
Defined.

Lemma filter_all {A : Type} (p : A -> bool) (l : list A) :
  forallb p l = true -> List.filter p l = l.
Proof.
  induction l as [|x l IH]; [reflexivity|]. cbn. intros H.
  apply andb_true_iff in H. destruct H as [Hx Hl]. rewrite Hx, IH by exact Hl. reflexivity.
Qed.

(** X5: when no pair is skipped, the overall score is the mean of the
    individual scores rounded to two decimals (0 for no pairs at all), and
    every pair is scored. *)
Theorem mean_when_nothing_skipped (now : string)
    (questions_responses : list question_response) :
  forallb answered questions_responses = true ->
  exists r,
    InterviewStatistics.score_multiple_responses now questions_responses = Some r
    /\ length (scored_responses r) = length questions_responses
    /\ assessed_overall_score (assessed r) =
         Spec.mean_score (map overall_score (scored_responses r)).
Proof.
  intros Hall.
  unfold InterviewStatistics.score_multiple_responses.
  pose proof (full_loop_fold now (enumerate questions_responses)
                {| responses := {| scored := []; total_score := 0 |};
                   criteria_scores_so_far := initial_criteria_scores |}) as H.
  cbn zeta in H. cbn [responses scored total_score map app] in H.
  destruct H as (_ & Hs & Ht & _).
  rewrite enumerate_answered, (filter_all answered _ Hall) in Hs, Ht.
  rewrite overall_assessment_some. cbn [mbind option_bind].
  eexists. split; [reflexivity|]. cbn [scored_responses assessed].
  assert (Hlen : length (scored (responses
                   (fold_left (full_loop_body now) (enumerate questions_responses)
                      {| responses := {| scored := []; total_score := 0 |};
                         criteria_scores_so_far := initial_criteria_scores |})))
                 = length questions_responses).
  { rewrite <- (length_map overall_score), Hs, length_map. reflexivity. }
  split; [exact Hlen|].
  rewrite Hs, Ht. unfold Spec.mean_score.
  destruct questions_responses as [|qr rest]; [reflexivity|].
  cbn [map length]. rewrite length_map.
  replace (Z.of_nat (S (length rest)) =? 0) with false by (symmetry; apply Z.eqb_neq; lia).
  cbn [assessed_overall_score]. rewrite Z.add_0_l. reflexivity.
Qed.

(** Two answered pairs with the scores 3 and 5: the overall score is 4.0. *)
Lemma mean_when_nothing_skipped_witness :
  option_map (fun r => assessed_overall_score (assessed r))
    (InterviewStatistics.score_multiple_responses ""
       [ Sample.pair "Why us?" "I like it.";
         Sample.pair "Why you?" (Sample.repeat_string 6 "I am good. ") ])
  = Some (Py.Float 4).
Proof.
  destruct (mean_when_nothing_skipped ""
              [ Sample.pair "Why us?" "I like it.";
                Sample.pair "Why you?" (Sample.repeat_string 6 "I am good. ") ] eq_refl)
    as (r & Hr & _ & Hmean).
  rewrite Hr. cbn [option_map]. rewrite Hmean. clear Hmean.
  vm_compute in Hr. injection Hr as Hr. subst r.
  vm_compute. reflexivity.
Defined.

End AggregationMore.

(** ** Interview statistics and recommendations *)

Section StatisticsProperties.

Import InterviewScorer InterviewStatistics Notions.

(** X6: the overall assessment of an interview always succeeds; without
    questions it is poor with no recommendation, and otherwise the
    performance level and the recommendation agree: excellent with
    strong_hire, good with hire, fair with consider, poor with reject. *)
Theorem level_and_recommendation_agree (individual_scores : list score_result)
    (total num_questions : Z) :
  exists a,
    _calculate_overall_assessment individual_scores (Py.Int total) num_questions = Some a
    /\ (num_questions = 0 ->
        performance_level a = "poor" /\ assessed_recommendation a = None
        /\ consistency_score a = None)
    /\ (num_questions <> 0 ->
        In (performance_level a, assessed_recommendation a)
           [ ("excellent", Some "strong_hire"); ("good", Some "hire");
             ("fair", Some "consider"); ("poor", Some "reject") ]).
Proof.
  rewrite overall_assessment_some. eexists. split; [reflexivity|].
  destruct (num_questions =? 0) eqn:E.
  - apply Z.eqb_eq in E. split; [intros _; repeat split | intros H; contradiction].
  - apply Z.eqb_neq in E. split; [intros H; contradiction | intros _].
    cbn [performance_level assessed_recommendation].
    unfold _determine_interview_recommendation.
    destruct (Py.geb _ (Py.Float 8.5)); [left; reflexivity|].
    destruct (Py.geb _ (Py.Float 7.0)); [right; left; reflexivity|].
    destruct (Py.geb _ (Py.Float 5.5)); [right; right; left; reflexivity|].
    right; right; right; left; reflexivity.
Qed.

(** A total of 15 over two questions: good and hire. *)
Lemma level_and_recommendation_agree_witness :
  option_map (fun a => (performance_level a, assessed_recommendation a))
             (_calculate_overall_assessment [] (Py.Int 15) 2)
  = Some ("good", Some "hire")
  /\ In ("good", Some "hire")
        [ ("excellent", Some "strong_hire"); ("good", Some "hire");
          ("fair", Some "consider"); ("poor", Some "reject") ].
Proof.
  destruct (level_and_recommendation_agree [] 15 2) as (a & Ha & _ & Hin).
  specialize (Hin ltac:(discriminate)).
  vm_compute in Ha. injection Ha as Ha. subst a.
  split; [vm_compute; reflexivity | exact Hin].
Defined.

Lemma count_score_total (d : distribution) (score : Z) :
  distribution_total (count_score d score) = distribution_total d + 1
  /\ excellent d <= excellent (count_score d score)
  /\ good d <= good (count_score d score)
  /\ fair d <= fair (count_score d score)
  /\ poor d <= poor (count_score d score).
Proof.
  unfold count_score, distribution_total.
  destruct (Py.geb _ (Py.Float 8.5)); [cbn; lia|].
  destruct (Py.geb _ (Py.Float 7.0)); [cbn; lia|].
  destruct (Py.geb _ (Py.Float 5.5)); cbn; lia.
Qed.

Lemma score_thresholds (score : Z) :
  0 <= score <= 10 ->
  Py.geb (Py.Int score) (Py.Float 8.5) = (9 <=? score)
  /\ Py.geb (Py.Int score) (Py.Float 7.0) = (7 <=? score)
  /\ Py.geb (Py.Int score) (Py.Float 5.5) = (6 <=? score).
Proof.
  intros H.
  assert (Hcases : score = 0 \/ score = 1 \/ score = 2 \/ score = 3 \/ score = 4
                   \/ score = 5 \/ score = 6 \/ score = 7 \/ score = 8 \/ score = 9
                   \/ score = 10) by lia.
  repeat (destruct Hcases as [->|Hcases]); try subst score;
    repeat split; vm_compute; reflexivity.
Qed.

Lemma count_score_bands (d : distribution) (score : Z) :
  0 <= score <= 10 ->
  excellent (count_score d score) = excellent d + (if 9 <=? score then 1 else 0)
  /\ good (count_score d score)
     = good d + (if (7 <=? score) && (score <=? 8) then 1 else 0)
  /\ fair (count_score d score) = fair d + (if score =? 6 then 1 else 0)
  /\ poor (count_score d score) = poor d + (if score <=? 5 then 1 else 0).
Proof.
  intros H. unfold count_score.
  destruct (score_thresholds score H) as (-> & -> & ->).
  destruct (Z.leb_spec 9 score), (Z.leb_spec 7 score), (Z.leb_spec 6 score),
    (Z.leb_spec score 8), (Z.leb_spec score 5), (Z.eqb_spec score 6);
    cbn; lia.
Qed.

Lemma count_if_cons (p : Z -> bool) (score : Z) (scores : list Z) :
  count_if p (score :: scores) = (if p score then 1 else 0) + count_if p scores.
Proof.
  unfold count_if. cbn [List.filter]. destruct (p score); cbn [length]; lia.
Qed.

Lemma distribution_fold (scores : list Z) (d : distribution) :
  let final := fold_left count_score scores d in
  distribution_total final = distribution_total d + Z.of_nat (length scores)
  /\ (Forall (fun score => 0 <= score <= 10) scores ->
      excellent final = excellent d + count_if (fun score => 9 <=? score) scores
      /\ good final
         = good d + count_if (fun score => (7 <=? score) && (score <=? 8)) scores
      /\ fair final = fair d + count_if (fun score => score =? 6) scores
      /\ poor final = poor d + count_if (fun score => score <=? 5) scores).
Proof.
  revert d. induction scores as [|score scores IH]; intros d; cbn zeta.
  - cbn [fold_left length]. unfold count_if. cbn. split; [|intros _]; lia.
  - cbn [fold_left]. destruct (IH (count_score d score)) as [Htotal Hbands].
    cbn zeta in Htotal, Hbands. split.
    + rewrite Htotal. destruct (count_score_total d score) as [-> _].
      cbn [length]. lia.
    + intros Hall. inversion Hall as [|? ? Hscore Hrest]; subst.
      destruct (Hbands Hrest) as (-> & -> & -> & ->).
      destruct (count_score_bands d score Hscore) as (-> & -> & -> & ->).
      rewrite !count_if_cons. lia.
Qed.

(** X7: the score distribution of the summary statistics accounts for every
    scored response exactly once, and for scores on the 0 to 10 scale the
    four bands are: 9 and 10 excellent, 7 and 8 good, 6 fair, 5 and below
    poor. *)
Theorem score_distribution_partitions (individual_scores : list score_result)
    (criteria_scores : list (string * list Z)) :
  let d := score_distribution
             (_calculate_summary_statistics individual_scores criteria_scores) in
  let scores := map overall_score individual_scores in
  distribution_total d = Z.of_nat (length individual_scores)
  /\ (Forall (fun score => 0 <= score <= 10) scores ->
      excellent d = count_if (fun score => 9 <=? score) scores
      /\ good d = count_if (fun score => (7 <=? score) && (score <=? 8)) scores
      /\ fair d = count_if (fun score => score =? 6) scores
      /\ poor d = count_if (fun score => score <=? 5) scores).
Proof.
  cbn zeta. unfold _calculate_summary_statistics. cbn [score_distribution].
  pose proof (distribution_fold (map overall_score individual_scores)
                {| excellent := 0; good := 0; fair := 0; poor := 0 |}) as H.
  cbn zeta in H. destruct H as [Htotal Hbands]. split.
  - rewrite Htotal. rewrite length_map. reflexivity.
  - intros Hall. destruct (Hbands Hall) as (-> & -> & -> & ->).
    cbn [excellent good fair poor]. repeat split; lia.
Qed.

Lemma fold_min_spec (rest : list Z) (first : Z) :
  In (fold_left Z.min rest first) (first :: rest)
  /\ Forall (fun n => fold_left Z.min rest first <= n) (first :: rest).
Proof.
  revert first. induction rest as [|n rest IH]; intros first; cbn [fold_left].
  - split; [left; reflexivity | repeat constructor; lia].
  - destruct (IH (Z.min first n)) as [Hin Hall]. split.
    + destruct Hin as [Hin|Hin]; [|right; right; exact Hin].
      rewrite <- Hin. destruct (Z.min_spec first n) as [[_ ->]|[_ ->]];
        [left | right; left]; reflexivity.
    + inversion Hall as [|? ? Hmin Hrest]; subst.
      repeat constructor; [lia | lia |].
      exact Hrest.
Qed.

Lemma fold_max_spec (rest : list Z) (first : Z) :
  In (fold_left Z.max rest first) (first :: rest)
  /\ Forall (fun n => n <= fold_left Z.max rest first) (first :: rest).
Proof.
  revert first. induction rest as [|n rest IH]; intros first; cbn [fold_left].
  - split; [left; reflexivity | repeat constructor; lia].
  - destruct (IH (Z.max first n)) as [Hin Hall]. split.
    + destruct Hin as [Hin|Hin]; [|right; right; exact Hin].
      rewrite <- Hin. destruct (Z.max_spec first n) as [[_ ->]|[_ ->]];
        [right; left | left]; reflexivity.
    + inversion Hall as [|? ? Hmax Hrest]; subst.
      repeat constructor; [lia | lia |].
      exact Hrest.
Qed.

(** X8: the response quality entry is missing exactly when no response was
    scored; when present, its minimum and maximum are lengths of scored
    responses and every scored response's length lies between them. *)
Theorem response_quality_bounds (individual_scores : list score_result)
    (criteria_scores : list (string * list Z)) :
  let stats := _calculate_summary_statistics individual_scores criteria_scores in
  let lengths := response_lengths individual_scores in
  (response_quality stats = None <-> individual_scores = [])
  /\ (forall q, response_quality stats = Some q ->
      In (min_length q) lengths /\ In (max_length q) lengths
      /\ Forall (fun n => min_length q <= n <= max_length q) lengths).
Proof.
  cbn zeta. unfold _calculate_summary_statistics. cbn [response_quality].
  unfold response_lengths.
  destruct individual_scores as [|r individual_scores]; cbn [map].
  - split; [split; reflexivity | intros q H; discriminate].
  - split; [split; intros H; discriminate|].
    intros q H. injection H as <-. cbn [min_length max_length].
    set (first := response_length (result_metadata r)).
    set (rest := map _ individual_scores).
    destruct (fold_min_spec rest first) as [Hmin_in Hmin].
    destruct (fold_max_spec rest first) as [Hmax_in Hmax].
    split; [exact Hmin_in|]. split; [exact Hmax_in|].
    rewrite Forall_forall in *. intros n Hn. split; [apply Hmin | apply Hmax]; exact Hn.
Qed.

(** X9: the interview recommendations hold between two and five entries;
    the first two depend on the performance level only: two assessments with
    the same performance level get the same first two entries, whatever else
    they and the statistics hold; an assessment that carries no consistency
    score (the one made for an empty list of questions) is read as 50 and so
    always gets the note on inconsistent performance, which an empty
    interview therefore receives although it has no scores to be
    inconsistent. *)
Theorem interview_recommendations_bounds (overall_assessment : assessment)
    (summary_stats : statistics) (now : string) :
  let recs := _generate_interview_recommendations overall_assessment summary_stats in
  (2 <= length recs <= 5)%nat
  /\ (forall other_assessment other_stats,
        performance_level other_assessment = performance_level overall_assessment ->
        firstn 2 (_generate_interview_recommendations other_assessment other_stats)
        = firstn 2 recs)
  /\ (consistency_score overall_assessment = None ->
      nth_error recs 2
      = Some "Inconsistent performance across questions - investigate further")
  /\ option_map recommendations (score_multiple_responses now [])
     = Some [ "Poor interview performance - recommend rejection";
              "Consider providing constructive feedback";
              "Inconsistent performance across questions - investigate further" ].
Proof.
  cbn zeta.
  assert (Hfirst : forall a stats,
             exists rest,
               _generate_interview_recommendations a stats
               = firstn 5
                   ((if (performance_level a =? "excellent")%string then
                       [ "Strong technical interview performance - proceed to next round";
                         "Consider fast-track hiring process" ]
                     else if (performance_level a =? "good")%string then
                       [ "Solid interview performance - recommend for next stage";
                         "Schedule follow-up technical assessment if needed" ]
                     else if (performance_level a =? "fair")%string then
                       [ "Moderate interview performance - consider additional assessments";
                         "Review specific areas of weakness before proceeding" ]
                     else
                       [ "Poor interview performance - recommend rejection";
                         "Consider providing constructive feedback" ]) ++ rest)%list).
  { intros a stats. eexists. unfold _generate_interview_recommendations. reflexivity. }
  assert (Htwo : forall a stats, exists x y rest,
             _generate_interview_recommendations a stats = firstn 5 ([x; y] ++ rest)%list
             /\ forall a' stats',
                  performance_level a' = performance_level a ->
                  exists rest',
                    _generate_interview_recommendations a' stats'
                    = firstn 5 ([x; y] ++ rest')%list).
  { intros a stats. destruct (Hfirst a stats) as (rest & Hrest).
    destruct (performance_level a =? "excellent")%string eqn:E1;
      [|destruct (performance_level a =? "good")%string eqn:E2;
        [|destruct (performance_level a =? "fair")%string eqn:E3]];
      (do 3 eexists; split; [exact Hrest|]);
      intros a' stats' Hsame; destruct (Hfirst a' stats') as (rest' & Hrest');
      rewrite Hsame, E1, ?E2, ?E3 in Hrest'; exists rest'; exact Hrest'. }
  destruct (Htwo overall_assessment summary_stats) as (x & y & rest & Hrecs & Hsame).
  split; [|split; [|split]].
  - rewrite Hrecs, length_firstn. cbn [app length]. lia.
  - intros other_assessment other_stats Hlevel.
    destruct (Hsame other_assessment other_stats Hlevel) as (rest' & ->).
    rewrite Hrecs. reflexivity.
  - intros Hnone. unfold _generate_interview_recommendations. rewrite Hnone.
    cbn [CVAnalyzer.get].
    destruct (performance_level overall_assessment =? "excellent")%string; [reflexivity|].
    destruct (performance_level overall_assessment =? "good")%string; [reflexivity|].
    destruct (performance_level overall_assessment =? "fair")%string; reflexivity.
  - vm_compute. reflexivity.
Qed.

End StatisticsProperties.

(** ** Order of the threshold rules *)

Section Monotonicity.

Import Notions.

(** Splits on every comparison of a threshold with [a] and with [b], and
    drops the cases that [a <= b] excludes. *)
Ltac thresholds a b Hab :=
  repeat match goal with
  | |- context [PrimFloat.leb ?t a] =>
      let Ea := fresh "Ea" in
      let Eb := fresh "Eb" in
      destruct (PrimFloat.leb t a) eqn:Ea; destruct (PrimFloat.leb t b) eqn:Eb;
      [ | rewrite (float_leb_trans _ _ _ Ea Hab) in Eb; discriminate | | ]
  end.

(** X10: a higher score never gets a worse verdict.  For float scores
    [a <= b] (neither is NaN): the interview recommendation, the CV risk
    level and the CV hiring recommendation for [b] are at least as good as
    for [a], with the same skill gaps; and a final recommendation is at
    least as good whenever the weighted score is at least as high. *)
Theorem verdicts_monotone_in_score (a b : float)
    (skill_gaps : CVAnalyzer.gaps) (known_gaps : option CVAnalyzer.gaps) :
  PrimFloat.leb a b = true ->
  rank (InterviewScorer._determine_interview_recommendation (Py.Float a))
  <= rank (InterviewScorer._determine_interview_recommendation (Py.Float b))
  /\ safety (CVAnalyzer._determine_risk_level (Py.Float a) known_gaps)
     <= safety (CVAnalyzer._determine_risk_level (Py.Float b) known_gaps)
  /\ rank (CVAnalyzer._determine_hiring_recommendation (Py.Float a) skill_gaps)
     <= rank (CVAnalyzer._determine_hiring_recommendation (Py.Float b) skill_gaps)
  /\ (forall cv interview cv' interview',
        ReportGenerator.weighted cv interview = Py.Float a ->
        ReportGenerator.weighted cv' interview' = Py.Float b ->
        rank (ReportGenerator._generate_final_recommendation
                (ReportGenerator.with_score cv) (ReportGenerator.with_score interview))
        <= rank (ReportGenerator._generate_final_recommendation
                   (ReportGenerator.with_score cv') (ReportGenerator.with_score interview'))).
Proof.
  intros Hab. repeat split.
  - unfold InterviewScorer._determine_interview_recommendation, Py.geb, Py.leb, Py.to_float.
    thresholds a b Hab; cbn; lia.
  - unfold CVAnalyzer._determine_risk_level.
    destruct (match known_gaps with Some _ => _ | None => _ end); [lia|].
    unfold Py.geb, Py.leb, Py.to_float.
    thresholds a b Hab; cbn; lia.
  - unfold CVAnalyzer._determine_hiring_recommendation.
    destruct (CVAnalyzer.is_high _); [lia|].
    destruct (Py.ltb (CVAnalyzer.gap_score skill_gaps) (Py.Int 20));
      unfold Py.geb, Py.leb, Py.to_float;
      thresholds a b Hab; cbn; lia.
  - intros cv interview cv' interview' Ha Hb.
    unfold ReportGenerator._generate_final_recommendation.
    cbn [ReportGenerator.score_of ReportGenerator.with_score
         ReportGenerator.overall_assessment ReportGenerator.overall_score CVAnalyzer.get].
    cbv zeta. rewrite Ha, Hb.
    unfold Py.geb, Py.leb, Py.to_float.
    thresholds a b Hab; cbn; lia.
Qed.

(** From 72.5 to 88: hire becomes strong_hire, medium risk becomes low. *)
Lemma verdicts_monotone_in_score_witness :
  PrimFloat.leb 72.5 88 = true
  /\ rank (CVAnalyzer._determine_hiring_recommendation
             (Py.Float 72.5) (Cases.gaps_scored (Py.Float 10)))
     <= rank (CVAnalyzer._determine_hiring_recommendation
                (Py.Float 88) (Cases.gaps_scored (Py.Float 10))).
Proof.
  split; [reflexivity|].
  apply (verdicts_monotone_in_score 72.5 88 (Cases.gaps_scored (Py.Float 10)) None).
  reflexivity.
Defined.

End Monotonicity.

(** ** The texts of the CV assessment *)

Section AssessmentTexts.

Import CVAnalyzer CVTexts.

(** X11: the recommendations of a CV assessment hold between two and five
    entries; the entries that came with the analysis go first, so five or
    more of them crowd out everything else; with fewer than five, the advice
    to train in the (first three) missing skills follows them directly. *)
Theorem recommendations_shape (cv_skills : skills) (job_requirements : requirements)
    (skill_gaps : gap_lists) (llm : llm_analysis) (texts : llm_texts) :
  let recs := _generate_recommendations cv_skills job_requirements skill_gaps llm texts in
  let given := get (llm_recommendations texts) [] in
  (2 <= length recs <= 5)%nat
  /\ firstn (length given) recs = firstn 5 given
  /\ ((5 <= length given)%nat -> recs = firstn 5 given)
  /\ (forall skill others,
        (length given < 5)%nat ->
        listed_missing_technical_skills skill_gaps = skill :: others ->
        nth_error recs (length given)
        = Some ("Consider training in: "
                ++ PyMore.join ", " (firstn 3 (skill :: others)))).
Proof.
  cbn zeta. unfold _generate_recommendations.
  set (given := get (llm_recommendations texts) []).
  set (from_gaps := match listed_missing_technical_skills skill_gaps with
                    | [] => [] | _ => _ end).
  set (from_experience := match llm_experience_assessment llm with
                          | Some _ => _ | None => _ end).
  assert (Hgaps : (length from_gaps <= 1)%nat).
  { unfold from_gaps. destruct (listed_missing_technical_skills _); cbn; lia. }
  assert (Hexp : (length from_experience <= 1)%nat).
  { unfold from_experience. destruct (llm_experience_assessment llm); [|cbn; lia].
    destruct (Py.ltb _ _); cbn; lia. }
  set (general := [ "Schedule technical interview to assess practical skills";
                    "Consider probationary period for skill development" ]).
  set (all := (given ++ from_gaps ++ from_experience)%list).
  assert (Hall : length all = (length given + length from_gaps + length from_experience)%nat).
  { unfold all. rewrite !length_app. lia. }
  set (final := if Z.of_nat (length all) <? 3 then (all ++ general)%list else all).
  assert (Hprefix : exists rest, final = (given ++ from_gaps ++ rest)%list).
  { unfold final, all. destruct (_ <? 3).
    - exists (from_experience ++ general)%list. rewrite <- !app_assoc. reflexivity.
    - exists from_experience. reflexivity. }
  assert (Hlen : (2 <= length final)%nat).
  { unfold final. destruct (Z.ltb_spec (Z.of_nat (length all)) 3).
    - rewrite length_app. cbn [length general]. lia.
    - lia. }
  destruct Hprefix as (rest & Hprefix).
  split; [|split; [|split]].
  - rewrite length_firstn. lia.
  - rewrite Hprefix. rewrite firstn_firstn, firstn_app.
    destruct (Nat.le_gt_cases (length given) 5) as [Hle|Hgt].
    + rewrite Nat.min_l by exact Hle. rewrite firstn_all.
      replace (length given - length given)%nat with 0%nat by lia.
      cbn [firstn]. rewrite app_nil_r. symmetry. apply firstn_all2. exact Hle.
    + rewrite Nat.min_r by lia.
      replace (5 - length given)%nat with 0%nat by lia.
      cbn [firstn]. rewrite app_nil_r. reflexivity.
  - intros Hfive. rewrite Hprefix, firstn_app.
    replace (5 - length given)%nat with 0%nat by lia.
    cbn [firstn]. rewrite app_nil_r. reflexivity.
  - intros skill others Hfew Hmissing.
    assert (Hfrom : from_gaps
                    = ["Consider training in: "
                       ++ PyMore.join ", " (firstn 3 (skill :: others))]).
    { unfold from_gaps. rewrite Hmissing. reflexivity. }
    rewrite Hprefix, Hfrom, firstn_app.
    rewrite nth_error_app2 by (rewrite length_firstn; lia).
    rewrite length_firstn, Nat.min_r by lia.
    replace (length given - length given)%nat with 0%nat by lia.
    destruct (5 - length given)%nat as [|k] eqn:Hk; [lia|]. reflexivity.
Qed.

Lemma category_strength_cases (technical : list (string * list string))
    (key label : string) (n : nat) :
  (PyMore.nonempty (PyMore.lookup key technical) = true
   /\ exists text, category_strength technical key label n = [label ++ text])
  \/ (PyMore.nonempty (PyMore.lookup key technical) = false
      /\ category_strength technical key label n = []).
Proof.
  unfold category_strength, PyMore.nonempty.
  destruct (PyMore.lookup key technical) as [[|skill skills]|].
  - right. split; reflexivity.
  - left. split; [reflexivity | eexists; reflexivity].
  - right. split; reflexivity.
Qed.

(** X12: the limit of three never cuts the weaknesses derived from the
    skill gaps, so the note on the size of the gap is always kept; the
    strengths derived from a CV state a known experience level exactly when
    fewer than three of the categories programming languages, frameworks and
    tools are filled, because the level comes fourth. *)
Theorem limits_of_derived_texts (cv_skills : skills) (skill_gaps : gap_lists) :
  (Py.gtb (listed_gap_score skill_gaps) (Py.Int 50) = true ->
   In "Significant skill gaps identified" (_extract_weaknesses_from_gaps skill_gaps))
  /\ (Py.gtb (listed_gap_score skill_gaps) (Py.Int 50) = false ->
      Py.gtb (listed_gap_score skill_gaps) (Py.Int 20) = true ->
      In "Moderate skill gaps identified" (_extract_weaknesses_from_gaps skill_gaps))
  /\ (length (_extract_weaknesses_from_gaps skill_gaps) <= 3)%nat
  /\ (forall level,
        experience_level cv_skills = Some level ->
        (level =? "unknown")%string = false ->
        (In ("Appropriate experience level: " ++ level)
            (_extract_strengths_from_cv cv_skills)
         <-> match technical_skills cv_skills with
             | Some technical =>
                 PyMore.nonempty (PyMore.lookup "programming_languages" technical)
                 && PyMore.nonempty (PyMore.lookup "frameworks" technical)
                 && PyMore.nonempty (PyMore.lookup "tools" technical) = false
             | None => True
             end)).
Proof.
  split; [|split; [|split]].
  - intros H. unfold _extract_weaknesses_from_gaps. rewrite H.
    destruct (listed_missing_technical_skills skill_gaps),
      (listed_missing_tools skill_gaps); cbn; auto.
  - intros H50 H20. unfold _extract_weaknesses_from_gaps. rewrite H50, H20.
    destruct (listed_missing_technical_skills skill_gaps),
      (listed_missing_tools skill_gaps); cbn; auto.
  - unfold _extract_weaknesses_from_gaps. rewrite length_firstn. lia.
  - intros level Hlevel Hknown. unfold _extract_strengths_from_cv.
    rewrite Hlevel, Hknown. cbn [negb].
    destruct (technical_skills cv_skills) as [technical|].
    + destruct (category_strength_cases technical "programming_languages"
                  "Strong programming skills: " 3) as [(-> & p & ->)|(-> & ->)];
        destruct (category_strength_cases technical "frameworks"
                    "Experience with frameworks: " 2) as [(-> & f & ->)|(-> & ->)];
        destruct (category_strength_cases technical "tools"
                    "Proficient with tools: " 2) as [(-> & t & ->)|(-> & ->)];
        cbn; split; intros H; try reflexivity; try discriminate; auto 6;
        repeat (destruct H as [H|H]; [discriminate|]); contradiction.
    + cbn. split; auto.
Qed.

End AssessmentTexts.

(** ** Batch analysis *)

Section BatchAnalysis.

Import CVAnalyzer CVTexts.

Variable w : FileUtils.world.
Variable path_stem : string -> string.
Variable job_description_path : string.

Let store (results : gmap string analysis_result) (cv_file : string) :=
  <[path_stem cv_file := analyze_cv_against_job w cv_file job_description_path]> results.

Lemma batch_lookup_other (cv_files : list string) (results : gmap string analysis_result)
    (name : string) :
  (forall cv_file, In cv_file cv_files -> path_stem cv_file <> name) ->
  fold_left store cv_files results !! name = results !! name.
Proof.
  revert results. induction cv_files as [|cv_file cv_files IH]; intros results Hother;
    cbn [fold_left]; [reflexivity|].
  rewrite IH by (intros g Hg; apply Hother; right; exact Hg).
  unfold store. apply lookup_insert_ne. apply Hother. left. reflexivity.
Qed.

Lemma batch_keys (cv_files : list string) (results : gmap string analysis_result)
    (name : string) :
  is_Some (fold_left store cv_files results !! name)
  <-> is_Some (results !! name) \/ exists cv_file, In cv_file cv_files /\ path_stem cv_file = name.
Proof.
  revert results. induction cv_files as [|cv_file cv_files IH]; intros results;
    cbn [fold_left].
  - split; [auto|]. intros [H|(g & [] & _)]. exact H.
  - rewrite IH. unfold store. rewrite lookup_insert_is_Some. split.
    + intros [[H|[_ H]]|(g & Hg & Hname)].
      * right. exists cv_file. split; [left; reflexivity | exact H].
      * left. exact H.
      * right. exists g. split; [right; exact Hg | exact Hname].
    + intros [H|(g & [->|Hg] & Hname)].
      * destruct (decide (path_stem cv_file = name)) as [E|E]; [left; left; exact E|].
        left. right. split; assumption.
      * left. left. exact Hname.
      * right. exists g. split; assumption.
Qed.

(** X13: a batch analysis is keyed by the files' stems: the names of the
    result are exactly the stems of the given files, and under each name
    stands the analysis of the last file with that stem, so of two CVs whose
    paths differ only in directory or extension the earlier one is lost. *)
Theorem batch_keeps_last_per_stem (cv_files : list string) :
  let results := batch_analyze_cvs w path_stem cv_files job_description_path in
  (forall name,
     is_Some (results !! name) <-> exists cv_file, In cv_file cv_files /\ path_stem cv_file = name)
  /\ (forall before cv_file after,
        cv_files = (before ++ cv_file :: after)%list ->
        (forall later, In later after -> path_stem later <> path_stem cv_file) ->
        results !! path_stem cv_file
        = Some (analyze_cv_against_job w cv_file job_description_path))
  /\ (size results <= length cv_files)%nat.
Proof.
  cbn zeta. unfold batch_analyze_cvs. fold store. split; [|split].
  - intros name. rewrite batch_keys. rewrite lookup_empty. split.
    + intros [H|H]; [destruct H; discriminate | exact H].
    + auto.
  - intros before cv_file after -> Hlater.
    rewrite fold_left_app. cbn [fold_left].
    rewrite batch_lookup_other by exact Hlater.
    unfold store. apply lookup_insert_eq.
  - assert (H : forall files (results : gmap string analysis_result),
               (size (fold_left store files results) <= size results + length files)%nat).
    { induction files as [|f files IH]; intros results; cbn [fold_left length]; [lia|].
      etransitivity; [apply IH|]. unfold store.
      destruct (results !! path_stem f) eqn:E.
      - rewrite map_size_insert_Some by (eexists; exact E). lia.
      - rewrite map_size_insert_None by exact E. lia. }
    specialize (H cv_files ∅). rewrite map_size_empty in H.
    exact H.
Qed.

End BatchAnalysis.

(** ** Keyword extraction *)

Section ExtractionProperties.

Import CVAnalyzer Notions.

Lemma prefix_trans (a b t : string) :
  String.prefix a b = true -> String.prefix b t = true -> String.prefix a t = true.
Proof.
  revert b t. induction a as [|c a IH]; intros b t Hab Hbt.
  - destruct t; reflexivity.
  - destruct b as [|d b]; [discriminate|]. destruct t as [|e t]; [discriminate|].
    cbn [String.prefix] in *.
    destruct (Ascii.ascii_dec c d) as [->|]; [|discriminate].
    destruct (Ascii.ascii_dec d e) as [->|]; [|discriminate].
    exact (IH b t Hab Hbt).
Qed.

Lemma prefix_contains (a t : string) :
  String.prefix a t = true -> Str.contains a t = true.
Proof.
  intros H. destruct t; cbn [Str.contains]; rewrite H; reflexivity.
Qed.

Lemma contains_prefix_trans (a b t : string) :
  Str.contains a b = true -> String.prefix b t = true -> Str.contains a t = true.
Proof.
  revert t. induction b as [|c b IH]; intros t Hab Hbt.
  - cbn [Str.contains] in Hab. apply prefix_contains.
    exact (prefix_trans a "" t Hab Hbt).
  - cbn [Str.contains] in Hab. apply orb_true_iff in Hab.
    destruct Hab as [Hab|Hab].
    + apply prefix_contains. exact (prefix_trans _ _ _ Hab Hbt).
    + destruct t as [|d t]; [discriminate|].
      cbn [String.prefix] in Hbt.
      destruct (Ascii.ascii_dec c d); [|discriminate].
      cbn [Str.contains]. apply orb_true_iff. right. exact (IH t Hab Hbt).
Qed.

(** [in] on strings is transitive. *)
Lemma contains_trans (a b t : string) :
  Str.contains a b = true -> Str.contains b t = true -> Str.contains a t = true.
Proof.
  intros Hab. induction t as [|c t IH]; intros Hbt.
  - cbn [Str.contains] in Hbt. exact (contains_prefix_trans _ _ _ Hab Hbt).
  - cbn [Str.contains] in Hbt. apply orb_true_iff in Hbt.
    destruct Hbt as [Hbt|Hbt].
    + exact (contains_prefix_trans _ _ _ Hab Hbt).
    + cbn [Str.contains]. apply orb_true_iff. right. exact (IH Hbt).
Qed.

(** The table's keywords are written so that [title] followed by [lower]
    gives them back. *)
Lemma lower_title_keyword (k : string) :
  In k cv_keywords -> Str.lower (Str.title k) = k.
Proof.
  intros H.
  assert (Hall : forallb (fun k => (Str.lower (Str.title k) =? k)%string) cv_keywords = true)
    by (vm_compute; reflexivity).
  rewrite forallb_forall in Hall. apply String.eqb_eq. exact (Hall k H).
Qed.

Lemma In_cv_keywords (k : string) :
  In k cv_keywords <-> exists entry, In entry common_skills /\ In k (snd entry).
Proof.
  unfold cv_keywords. rewrite in_concat. split.
  - intros (l & Hl & Hk). apply in_map_iff in Hl. destruct Hl as (entry & <- & He).
    exists entry. split; assumption.
  - intros (entry & He & Hk). exists (snd entry). split; [apply in_map, He | exact Hk].
Qed.

Lemma cv_skill_iff (cv_text s : string) :
  s ∈ cv_all_skills (_fallback_skill_extraction cv_text)
  <-> In s cv_keywords /\ Str.contains s (Str.lower cv_text) = true.
Proof.
  unfold cv_all_skills, _fallback_skill_extraction. cbn [technical_skills].
  unfold all_skills. rewrite elem_of_fold_all_skills. split.
  - intros [H|(entry & original & He & Ho & ->)];
      [apply elem_of_empty in H; contradiction|].
    apply list_elem_of_In, in_map_iff in He. destruct He as (e & <- & He).
    cbn [snd] in Ho. apply list_elem_of_In, in_map_iff in Ho.
    destruct Ho as (k & <- & Hk). apply filter_In in Hk. destruct Hk as [Hin Hc].
    assert (Hkey : In k cv_keywords) by (apply In_cv_keywords; exists e; auto).
    rewrite (lower_title_keyword k Hkey). split; assumption.
  - intros [Hkey Hc]. right.
    destruct (proj1 (In_cv_keywords s) Hkey) as (e & He & Hs).
    eexists (fst e, _), (Str.title s). split; [|split].
    + apply list_elem_of_In, in_map_iff. exists e. split; [reflexivity | exact He].
    + cbn [snd]. apply list_elem_of_In, in_map. apply filter_In. split; assumption.
    + symmetry. exact (lower_title_keyword s Hkey).
Qed.

(** X14: the skills credited to a CV are exactly the keywords of the
    extractor's table that occur anywhere in the lowered text, inside other
    words too: a CV that mentions a word containing a keyword is credited
    with the keyword, as with java for a mention of JavaScript and go for a
    mention of Django or MongoDB. *)
Theorem cv_skills_are_substring_matches (cv_text s : string) :
  (s ∈ cv_all_skills (_extract_cv_skills cv_text)
   <-> In s cv_keywords /\ Str.contains s (Str.lower cv_text) = true)
  /\ (forall word,
        In s cv_keywords ->
        Str.contains s (Str.lower word) = true ->
        Str.contains word cv_text = true ->
        s ∈ cv_all_skills (_extract_cv_skills cv_text))
  /\ Str.contains "java" (Str.lower "JavaScript") = true
  /\ Str.contains "go" (Str.lower "Django") = true
  /\ Str.contains "go" (Str.lower "MongoDB") = true.
Proof.
  unfold _extract_cv_skills. split; [apply cv_skill_iff|]. split.
  - intros word Hkey Hword Hcv. apply cv_skill_iff. split; [exact Hkey|].
    exact (contains_trans _ _ _ Hword (contains_lower _ _ Hcv)).
  - repeat split; vm_compute; reflexivity.
Qed.

Lemma job_skill_intro (job_description category name : string) (names : list string) :
  In (category, names)
     (get (required_technical_skills
             (get (required_skills (_fallback_requirement_extraction job_description))
                  {| required_technical_skills := None; required_soft_skills := [] |}))
          []) ->
  In name names ->
  Str.lower name ∈ job_all_skills (_fallback_requirement_extraction job_description).
Proof.
  intros Hentry Hname.
  unfold job_all_skills, _fallback_requirement_extraction in *.
  cbn [required_skills required_technical_skills get] in *.
  unfold all_skills. apply elem_of_fold_all_skills. right.
  exists (category, names), name. split; [|split].
  - apply list_elem_of_In. exact Hentry.
  - apply list_elem_of_In. exact Hname.
  - reflexivity.
Qed.

Lemma not_a_cv_keyword (cv_text name : string) :
  existsb (String.eqb name) cv_keywords = false ->
  name ∉ cv_all_skills (_fallback_skill_extraction cv_text).
Proof.
  intros Hnot Hin. apply cv_skill_iff in Hin. destruct Hin as [Hkey _].
  assert (H : existsb (String.eqb name) cv_keywords = true).
  { apply existsb_exists. exists name. split; [exact Hkey | apply String.eqb_refl]. }
  rewrite Hnot in H. discriminate.
Qed.

(** Shows that the goal's name stands in the given category of the
    requirement table. *)
Ltac required_by_job category H :=
  match goal with
  | |- ?name ∈ job_all_skills (_fallback_requirement_extraction ?job) =>
      change name with (Str.lower name);
      eapply (job_skill_intro job category name);
      [ cbn [_fallback_requirement_extraction required_skills required_technical_skills get];
        cbn [In]; eauto 10
      | cbn beta; rewrite ?H; cbn [when app orb In];
        repeat (destruct (Str.contains _ _); cbn [when app orb In]); auto ]
  end.

(** X15: five of the names that the requirement extractor produces are not
    keywords of the CV extractor, so no CV can cover them: a job description
    that mentions Django or Flask, a cloud platform, CI/CD or Jenkins,
    microservices or system design always has the corresponding skill
    reported as missing, whatever the CV says. *)
Theorem composite_requirements_always_missing (cv_text job_description : string) :
  let has := fun word => Str.contains word (Str.lower job_description) in
  let missing :=
    missing_technical_skills
      (skill_gaps (_perform_comprehensive_analysis cv_text job_description)) in
  (has "django" || has "flask" = true -> "django/flask" ∈ missing)
  /\ (has "aws" || has "azure" || has "gcp" = true -> "cloud platforms" ∈ missing)
  /\ (has "ci/cd" || has "jenkins" = true -> "ci/cd" ∈ missing)
  /\ (has "microservices" = true -> "microservices" ∈ missing)
  /\ (has "system design" = true -> "system design" ∈ missing).
Proof.
  cbn zeta. unfold _perform_comprehensive_analysis. cbn [skill_gaps].
  unfold _extract_cv_skills, _extract_job_requirements.
  destruct (skill_gaps_score (_fallback_skill_extraction cv_text)
              (_fallback_requirement_extraction job_description)) as (_ & _ & -> & _).
  repeat split; intros H; apply elem_of_difference;
    (split; [|apply not_a_cv_keyword; vm_compute; reflexivity]).
  - required_by_job "frameworks" H.
  - required_by_job "cloud_platforms" H.
  - required_by_job "tools" H.
  - required_by_job "architecture" H.
  - required_by_job "architecture" H.
Qed.

End ExtractionProperties.

(** ** The analysis as a whole *)

Section AnalysisRange.

Import CVAnalyzer Notions.

Lemma job_skill_listed (job_description s : string) :
  s ∈ job_all_skills (_fallback_requirement_extraction job_description) ->
  In s job_keywords.
Proof.
  unfold job_all_skills, _fallback_requirement_extraction.
  cbn [required_skills required_technical_skills]. unfold all_skills.
  rewrite elem_of_fold_all_skills.
  intros [H|(entry & original & He & Ho & ->)]; [apply elem_of_empty in H; contradiction|].
  apply list_elem_of_In in He. apply list_elem_of_In in Ho.
  cbn [In] in He.
  repeat (destruct He as [<-|He]; [revert Ho; cbn [snd];
    repeat (destruct (Str.contains _ _)); cbn [when app orb In];
    intros Ho; repeat (destruct Ho as [<-|Ho]; [vm_compute; tauto|]); contradiction|]).
  contradiction.
Qed.

Lemma job_skills_at_most_eleven (job_description : string) :
  (size (job_all_skills (_fallback_requirement_extraction job_description)) <= 11)%nat.
Proof.
  assert (Hsub : job_all_skills (_fallback_requirement_extraction job_description)
                 ⊆ list_to_set job_keywords).
  { intros s Hs. apply elem_of_list_to_set, list_elem_of_In.
    exact (job_skill_listed job_description s Hs). }
  apply subseteq_size in Hsub. etransitivity; [exact Hsub|].
  vm_compute. lia.
Qed.

Lemma up_to_eleven (k : Z) :
  0 <= k <= 11 -> In k [0; 1; 2; 3; 4; 5; 6; 7; 8; 9; 10; 11].
Proof. cbn [In]. lia. Qed.

(** X16: an analysis of two texts never recommends rejection: its overall
    score is the mean of the constants 75 and 85 and of 100 minus the gap
    score, so it stays between 53 and 87 whatever the CV and the job
    description say. *)
Theorem analysis_never_rejects (cv_text job_description : string) :
  let a := overall_assessment (_perform_comprehensive_analysis cv_text job_description) in
  In (hiring_recommendation a) ["strong_hire"; "hire"; "consider"; "consider_with_caution"]
  /\ Py.leb (Py.Int 53) (overall_score a) = true
  /\ Py.leb (overall_score a) (Py.Int 87) = true.
Proof.
  cbn zeta. unfold _perform_comprehensive_analysis. cbn [overall_assessment].
  unfold _extract_cv_skills, _extract_job_requirements.
  set (cv := _fallback_skill_extraction cv_text).
  set (job := _fallback_requirement_extraction job_description).
  pose proof (skill_gaps_score cv job) as H. cbv zeta in H.
  pose proof (job_skills_at_most_eleven job_description) as Htotal. fold job in Htotal.
  assert (Hmissing : (size (job_all_skills job ∖ cv_all_skills cv)
                      <= size (job_all_skills job))%nat)
    by (apply subseteq_size; intros x Hx; apply elem_of_difference in Hx; tauto).
  set (g := _calculate_skill_gaps cv job) in *.
  set (t := Z.of_nat (size (job_all_skills job))) in *.
  set (m := Z.of_nat (size (job_all_skills job ∖ cv_all_skills cv))) in *.
  assert (Ht : 0 <= t <= 11) by lia.
  assert (Hm : 0 <= m <= t) by lia.
  destruct H as (Hscore & Hgap & _ & Hrisk).
  rewrite classify_experience_gap_cases in Hgap.
  clearbody g t m. clear Htotal Hmissing.
  unfold _generate_overall_assessment, component_scores, _perform_llm_analysis.
  cbn [llm_overall_score llm_experience_assessment experience_score get].
  unfold _determine_hiring_recommendation.
  rewrite Hrisk, Hscore. clear Hrisk Hscore.
  destruct (_ && _) in Hgap; [|destruct (_ && _) in Hgap];
    rewrite Hgap; clear Hgap;
    destruct (up_to_eleven t Ht) as
      [<-|[<-|[<-|[<-|[<-|[<-|[<-|[<-|[<-|[<-|[<-|[<-|[]]]]]]]]]]]]];
    (assert (Hm' : 0 <= m <= 11) by lia);
    destruct (up_to_eleven m Hm') as
      [<-|[<-|[<-|[<-|[<-|[<-|[<-|[<-|[<-|[<-|[<-|[<-|[]]]]]]]]]]]]];
    try lia; vm_compute; tauto.
Qed.

End AnalysisRange.

(** ** The sections of the report *)

Section ReportProperties.

Import ReportSections Notions.

(** X17: in the risk assessment every red flag is backed by the rest of
    the section: a very poor interview makes the overall risk high and is
    listed among the risk factors, and significant skill gaps are listed as a
    high gap score; but when the CV analysis carries no skill gaps (as the
    error result of a failed analysis does) the section ends early and no
    red flag is raised, however poor the interview. *)
Theorem red_flags_are_backed (cv : cv_analysis) (iv : interview_scores) :
  let r := _generate_risk_assessment cv iv in
  (In "Very poor interview performance" (red_flags r) ->
   overall_risk_level r = "high"
   /\ exists score, In (LowInterviewPerformance score) (risk_factors r)
                    /\ Py.ltb score (Py.Int 4) = true)
  /\ (In "Significant skill gaps" (red_flags r) ->
      exists gap_score, In (HighSkillGap gap_score) (risk_factors r)
                        /\ Py.gtb gap_score (Py.Int 50) = true)
  /\ (cv_gap_score cv = None -> red_flags r = [])
  /\ (overall_risk_level r = "high" -> length (mitigation_strategies r) = 4%nat)
  /\ In (overall_risk_level r) ["high"; "medium"; "low"].
Proof.
  cbn zeta. unfold _generate_risk_assessment.
  set (cv_risk := match cv_overall_assessment cv with Some _ => _ | None => _ end).
  set (score := match interview_overall_assessment iv with Some _ => _ | None => _ end).
  set (consistent := match interview_overall_assessment iv with
                     | Some a => if Py.ltb _ (Py.Int 70) then _ else _
                     | None => [] end).
  assert (H45 : Py.ltb score (Py.Int 4) = true -> Py.ltb score (Py.Int 5) = true)
    by (apply ltb_int_weaken; [lia | reflexivity]).
  assert (H46 : Py.ltb score (Py.Int 4) = true -> Py.ltb score (Py.Int 6) = true)
    by (apply ltb_int_weaken; [lia | reflexivity]).
  destruct (cv_gap_score cv) as [g|]; cbn [red_flags overall_risk_level risk_factors
                                             mitigation_strategies].
  - set (gap := CVAnalyzer.get g (Py.Int 0)).
    assert (H53 : Py.gtb gap (Py.Int 50) = true -> Py.gtb gap (Py.Int 30) = true)
      by (apply gtb_int_weaken; [lia | reflexivity]).
    split; [|split; [|split; [|split]]].
    + intros Hin. destruct (Py.ltb score (Py.Int 4)) eqn:E4.
      * rewrite (H45 eq_refl), (H46 eq_refl), orb_true_r. split; [reflexivity|].
        exists score. split; [|exact E4].
        apply in_or_app. right. left. reflexivity.
      * cbn [app] in Hin. destruct (Py.gtb gap (Py.Int 50)); cbn in Hin.
        -- destruct Hin as [Hin|[]]. discriminate.
        -- contradiction.
    + intros Hin. destruct (Py.gtb gap (Py.Int 50)) eqn:E50.
      * rewrite (H53 eq_refl). exists gap. split; [left; reflexivity | exact E50].
      * destruct (Py.ltb score (Py.Int 4)); cbn in Hin.
        -- destruct Hin as [Hin|[]]. discriminate.
        -- contradiction.
    + intros H. discriminate.
    + destruct ((cv_risk =? "high")%string || Py.ltb score (Py.Int 5)); [reflexivity|].
      destruct ((cv_risk =? "low")%string && Py.geb score (Py.Int 7)); discriminate.
    + destruct ((cv_risk =? "high")%string || Py.ltb score (Py.Int 5)); [cbn; auto|].
      destruct ((cv_risk =? "low")%string && Py.geb score (Py.Int 7)); cbn; auto.
  - split; [|split; [|split; [|split]]].
    + intros [].
    + intros [].
    + reflexivity.
    + destruct ((cv_risk =? "high")%string || Py.ltb score (Py.Int 5)); [reflexivity|].
      destruct ((cv_risk =? "low")%string && Py.geb score (Py.Int 7)); discriminate.
    + destruct ((cv_risk =? "high")%string || Py.ltb score (Py.Int 5)); [cbn; auto|].
      destruct ((cv_risk =? "low")%string && Py.geb score (Py.Int 7)); cbn; auto.
Qed.

(** The score of an analysis is one of finitely many values: it depends on
    the experience gap and on the numbers of required and missing skills
    only, and there are at most eleven required skills. *)
Lemma analysis_score_cases (cv_text job_description : string) :
  exists experience_gap total_required missing_count,
    In experience_gap
       [None; Some "junior_applying_for_senior"; Some "senior_applying_for_junior"]
    /\ 0 <= missing_count <= total_required /\ total_required <= 11
    /\ CVAnalyzer.overall_score
         (CVAnalyzer.overall_assessment
            (CVAnalyzer._perform_comprehensive_analysis cv_text job_description))
       = Py.Float
           (Py.to_float
              (Py.sum [ Py.Int 75;
                        Py.sub (Py.Int 100)
                          (CVAnalyzer.get
                             (CVAnalyzer.compute_gap_score experience_gap total_required
                                missing_count)
                             (Py.Int 0));
                        Py.Int 85 ])
            / Py.Z2F 3).
Proof.
  unfold CVAnalyzer._perform_comprehensive_analysis. cbn [CVAnalyzer.overall_assessment].
  unfold CVAnalyzer._extract_cv_skills, CVAnalyzer._extract_job_requirements.
  set (cv := CVAnalyzer._fallback_skill_extraction cv_text).
  set (job := CVAnalyzer._fallback_requirement_extraction job_description).
  pose proof (skill_gaps_score cv job) as H. cbv zeta in H.
  pose proof (job_skills_at_most_eleven job_description) as Htotal. fold job in Htotal.
  assert (Hmissing : (size (CVAnalyzer.job_all_skills job ∖ CVAnalyzer.cv_all_skills cv)
                      <= size (CVAnalyzer.job_all_skills job))%nat)
    by (apply subseteq_size; intros x Hx; apply elem_of_difference in Hx; tauto).
  destruct H as (Hscore & Hgap & _ & _).
  exists (CVAnalyzer.experience_gap (CVAnalyzer._calculate_skill_gaps cv job)),
    (Z.of_nat (size (CVAnalyzer.job_all_skills job))),
    (Z.of_nat (size (CVAnalyzer.job_all_skills job ∖ CVAnalyzer.cv_all_skills cv))).
  split; [|split; [|split]].
  - rewrite Hgap, classify_experience_gap_cases.
    destruct (_ && _); [cbn; auto|]. destruct (_ && _); cbn; auto.
  - split; [apply Nat2Z.is_nonneg | apply inj_le, Hmissing].
  - change 11 with (Z.of_nat 11). apply inj_le, Htotal.
  - unfold CVAnalyzer._generate_overall_assessment, CVAnalyzer.component_scores,
      CVAnalyzer._perform_llm_analysis.
    cbn [CVAnalyzer.llm_overall_score CVAnalyzer.llm_experience_assessment
         CVAnalyzer.experience_score CVAnalyzer.get].
    rewrite Hscore, compute_gap_score_some. reflexivity.
Qed.

Lemma summary_poor_on_grid :
  forallb (fun experience_gap =>
    forallb (fun total_required =>
      forallb (fun missing_count =>
        forallb (fun n =>
          (_get_performance_level
             (summary_score
                (Py.Float
                   (Py.to_float
                      (Py.sum [ Py.Int 75;
                                Py.sub (Py.Int 100)
                                  (CVAnalyzer.get
                                     (CVAnalyzer.compute_gap_score experience_gap
                                        total_required missing_count)
                                     (Py.Int 0));
                                Py.Int 85 ])
                    / Py.Z2F 3))
                (Py.Float (Py.Z2F n / 100))) =? "Poor")%string)
          (range 0 1000))
        (range 0 total_required))
      (range 0 11))
    [None; Some "junior_applying_for_senior"; Some "senior_applying_for_junior"]
  = true.
Proof. vm_compute. reflexivity. Qed.

Lemma summary_poor_without_cv :
  forallb (fun n =>
             (_get_performance_level (summary_score (Py.Int 0) (Py.Float (Py.Z2F n / 100)))
              =? "Poor")%string)
          (range 0 1000)
  = true.
Proof. vm_compute. reflexivity. Qed.

(** X18: the executive summary weighs the interview score on its 0 to 10
    scale against the CV score on its 0 to 100 scale, without the factor 10
    that the final recommendation applies; so for every analysis of two
    files and every interview score with two decimals between 0 and 10 the
    summary's performance level is Poor, although the final recommendation
    printed beside it can be strong_hire. *)
Theorem executive_summary_always_poor (w : FileUtils.world) (cv_path job_path : string)
    (listed : CVTexts.assessment_texts) (iv : interview_scores) (a : interview_assessment)
    (info : candidate_info) (n : Z) :
  0 <= n <= 1000 ->
  interview_overall_assessment iv = Some a ->
  interview_score a = Some (Py.Float (Py.Z2F n / 100)) ->
  let cv := of_analysis (CVAnalyzer.analyze_cv_against_job w cv_path job_path) listed in
  summary_performance_level
    (summary_overall_assessment (_generate_executive_summary cv iv info))
  = "Poor".
Proof.
  intros Hn Ha Hs. cbn zeta. unfold _generate_executive_summary.
  cbn [summary_overall_assessment summary_performance_level].
  unfold interview_scored, cv_scored, ReportGenerator.score_of.
  cbn [ReportGenerator.overall_assessment]. rewrite Ha.
  cbn [ReportGenerator.overall_score]. rewrite Hs. cbn [CVAnalyzer.get].
  apply String.eqb_eq.
  assert (Hnone : (_get_performance_level
                     (summary_score (Py.Int 0) (Py.Float (Py.Z2F n / 100))) =? "Poor")%string
                  = true).
  { pose proof summary_poor_without_cv as H. rewrite forallb_forall in H.
    apply H, in_range, Hn. }
  unfold CVAnalyzer.analyze_cv_against_job.
  destruct (FileUtils.read_file w cv_path) as [cv_text|message]; [|exact Hnone].
  destruct (FileUtils.read_file w job_path) as [job_description|message]; [|exact Hnone].
  destruct (Str.is_empty _ || Str.is_empty _);
    cbn [of_analysis cv_overall_assessment cv_score ReportGenerator.overall_score
         CVAnalyzer.overall_assessment CVAnalyzer.get].
  - exact Hnone.
  - destruct (analysis_score_cases cv_text job_description)
      as (eg & t & m & Heg & Hm & Ht & ->).
    pose proof summary_poor_on_grid as H. rewrite forallb_forall in H.
    specialize (H eg Heg). rewrite forallb_forall in H.
    specialize (H t (in_range 0 11 t ltac:(lia))). rewrite forallb_forall in H.
    specialize (H m (in_range 0 t m Hm)). rewrite forallb_forall in H.
    exact (H n (in_range 0 1000 n Hn)).
Qed.

(** A senior Python CV for a senior Python job and a perfect interview:
    the summary says Poor and strong_hire. *)
Lemma executive_summary_always_poor_witness :
  summary_performance_level (summary_overall_assessment Cases.senior_python_summary) = "Poor"
  /\ final_recommendation Cases.senior_python_summary = "strong_hire".
Proof.
  split.
  - unfold Cases.senior_python_summary.
    eapply (executive_summary_always_poor _ "cv.txt" "job.txt" _ _ _ _ 1000);
      [lia | reflexivity | reflexivity].
  - vm_compute. reflexivity.
Defined.

End ReportProperties.

(** ** From the files to the report *)

Section FilesToReport.

Import Notions.

Lemma whitespace_only_app (a b : string) :
  whitespace_only (a ++ b) = whitespace_only a && whitespace_only b.
Proof.
  induction a as [|c a IH]; [reflexivity|].
  change (String c a ++ b) with (String c (a ++ b)). cbn [whitespace_only].
  rewrite IH. apply andb_assoc.
Qed.

Lemma strip_blank (s : string) : whitespace_only s = true -> Str.strip s = "".
Proof.
  unfold Str.strip. induction s as [|c s IH]; [reflexivity|].
  cbn [whitespace_only Str.lstrip]. intros H. apply andb_true_iff in H.
  destruct H as [-> H]. exact (IH H).
Qed.

Lemma blank_pages (pages : list string) (text : string) :
  whitespace_only text = true ->
  forallb whitespace_only pages = true ->
  whitespace_only
    (fold_left (fun text page => text ++ page ++ FileUtils.newline) pages text) = true.
Proof.
  revert text. induction pages as [|page pages IH]; intros text Htext Hpages;
    cbn [fold_left]; [exact Htext|].
  cbn [forallb] in Hpages. apply andb_true_iff in Hpages. destruct Hpages as [Hpage Hpages].
  apply IH; [|exact Hpages].
  rewrite !whitespace_only_app, Htext, Hpage. reflexivity.
Qed.

(** X19: a PDF or Word document whose pages hold white space only reads
    as the empty text, because the text of such documents is stripped; the
    analysis then answers with its read error, as for a missing file,
    whenever the other file is read without an exception, and with the
    message of the exception otherwise. *)
Theorem blank_document_is_unreadable (w : FileUtils.world) (cv_path job_path : string)
    (pages : list string) :
  FileUtils.path_exists w cv_path = Returns true ->
  (Str.lower (FileUtils.path_suffix w cv_path) = ".pdf"
   /\ FileUtils.pdf_pages w cv_path = Some pages)
  \/ (In (Str.lower (FileUtils.path_suffix w cv_path)) [".docx"; ".doc"]
      /\ FileUtils.docx_paragraphs w cv_path = Some pages) ->
  forallb whitespace_only pages = true ->
  FileUtils.read_file w cv_path = Returns ""
  /\ (forall text,
        FileUtils.read_file w job_path = Returns text ->
        CVAnalyzer.analyze_cv_against_job w cv_path job_path
        = CVAnalyzer.Error "Failed to read input files"
        /\ CVAnalyzer.analyze_cv_against_job w job_path cv_path
           = CVAnalyzer.Error "Failed to read input files")
  /\ (forall message,
        FileUtils.read_file w job_path = Raises message ->
        CVAnalyzer.analyze_cv_against_job w cv_path job_path = CVAnalyzer.Error message
        /\ CVAnalyzer.analyze_cv_against_job w job_path cv_path = CVAnalyzer.Error message).
Proof.
  intros Hexists Hkind Hblank.
  assert (Hread : FileUtils.read_file w cv_path = Returns "").
  { unfold FileUtils.read_file. rewrite Hexists. cbn [negb].
    destruct Hkind as [[-> Hpages]|[Hsuffix Hpages]].
    - cbn. unfold FileUtils.read_pdf_file. rewrite Hpages. f_equal.
      apply strip_blank, blank_pages; [reflexivity | exact Hblank].
    - assert (Hword : FileUtils.read_word_file w cv_path = "").
      { unfold FileUtils.read_word_file. rewrite Hpages.
        apply strip_blank, blank_pages; [reflexivity | exact Hblank]. }
      destruct Hsuffix as [<-|[<-|[]]]; cbn; rewrite Hword; reflexivity. }
  split; [exact Hread|].
  unfold CVAnalyzer.analyze_cv_against_job. rewrite Hread. split.
  - intros text ->. cbn [Str.is_empty orb]. split; [reflexivity|].
    rewrite orb_true_r. reflexivity.
  - intros message ->. split; reflexivity.
Qed.

Lemma blank_document_is_unreadable_witness :
  FileUtils.read_file Cases.blank_pdf "cv.pdf" = Returns ""
  /\ CVAnalyzer.analyze_cv_against_job Cases.blank_pdf "cv.pdf" "job.txt"
     = CVAnalyzer.Error "Failed to read input files"
  /\ CVAnalyzer.analyze_cv_against_job Cases.blank_pdf "job.txt" "cv.pdf"
     = CVAnalyzer.Error "Failed to read input files".
Proof.
  destruct (blank_document_is_unreadable Cases.blank_pdf "cv.pdf" "job.txt"
              ["  "; FileUtils.newline])
    as (Hread & Hreturns & _).
  - reflexivity.
  - left. split; reflexivity.
  - reflexivity.
  - split; [exact Hread|]. apply (Hreturns ""). reflexivity.
Defined.

Lemma In_firstn {A : Type} (n : nat) (l : list A) (x : A) : In x (firstn n l) -> In x l.
Proof.
  revert l. induction n as [|n IH]; intros [|y l] H; cbn in H; try contradiction.
  destruct H as [->|H]; [left; reflexivity | right; exact (IH l H)].
Qed.

(** X20: what the report says of the candidate of an analysis: the years
    of experience are always the constant of the analysis stub, whatever
    years label the CV extractor set; the experience level is the one the CV
    extractor read; and the key skills are at most twelve capitalised
    keywords of the extractor's table that occur in the CV. *)
Theorem candidate_overview_of_analysis (cv_text job_description : string)
    (listed : CVTexts.assessment_texts) :
  let result :=
    CVAnalyzer.Analysis (CVAnalyzer._perform_comprehensive_analysis cv_text job_description) in
  let info := ReportSections._extract_candidate_info (ReportSections.of_analysis result listed) in
  ReportSections.years_experience info = "3-5 years"
  /\ ReportSections.experience_level info
     = fst (CVAnalyzer.cv_experience (Str.lower cv_text))
  /\ (length (ReportSections.key_skills info) <= 12)%nat
  /\ (forall skill,
        In skill (ReportSections.key_skills info) ->
        exists keyword,
          In keyword cv_keywords /\ skill = Str.title keyword
          /\ Str.contains keyword (Str.lower cv_text) = true).
Proof.
  cbn zeta. split; [reflexivity|]. split; [reflexivity|].
  unfold ReportSections._extract_candidate_info, ReportSections.of_analysis.
  cbn [ReportSections.key_skills ReportSections.cv_skills
       CVAnalyzer._perform_comprehensive_analysis CVAnalyzer.analysed_cv_skills].
  unfold CVAnalyzer._perform_comprehensive_analysis.
  cbn [CVAnalyzer.analysed_cv_skills].
  unfold CVAnalyzer._extract_cv_skills, CVAnalyzer._fallback_skill_extraction.
  cbn [CVAnalyzer.technical_skills]. split.
  - unfold CVAnalyzer.common_skills. cbn [map concat fst snd].
    rewrite !length_app, !length_firstn. cbn [length]. lia.
  - intros skill Hin. apply in_concat in Hin. destruct Hin as (l & Hl & Hskill).
    apply in_map_iff in Hl. destruct Hl as (entry & <- & Hentry).
    apply In_firstn in Hskill.
    apply in_map_iff in Hentry. destruct Hentry as (e & <- & He).
    cbn [snd] in Hskill. apply in_map_iff in Hskill.
    destruct Hskill as (keyword & <- & Hk). apply filter_In in Hk.
    destruct Hk as [Hk Hc]. exists keyword. split; [|split; [reflexivity | exact Hc]].
    apply In_cv_keywords. exists e. split; assumption.
Qed.

End FilesToReport.
